(** * BusinessGPT Beta: the quota-guarded chat turn

    A shallow embedding of the chat endpoint of the server
    ([apiChatHandler] and the functions it calls: [checkUsageLimit],
    [callLLMAPI], [callOpenAI], [recordUsage], [saveChatHistory]) together
    with the part of the PostgreSQL schema those functions touch
    ([user_usage], [chat_sessions], [chat_messages]).

    The Go functions talk to three collaborators: the process environment,
    the HTTP client and the datastore.  Each such call is an [action]; a Go
    function becomes a program in the free monad over actions, so that the
    same text can be run to completion (one request handled alone) or one
    action at a time (several requests sharing the datastore). *)

From Stdlib Require Import ZArith String Ascii List Lia Bool QArith.
From stdpp Require Import base option gmap list strings pretty.

Local Open Scope Z_scope.

(** ** Wire types *)

(** A Go [error] is represented by its message ([err.Error()]). *)
Abbreviation error := string (only parsing).

Record APIRequest := {
  req_Message : string;
  req_Model : string
}.

Record APIResponse := {
  resp_Response : string;
  resp_Model : string;
  resp_Tokens : Z
}.

Record OpenAIRequest := {
  oai_Model : string;
  oai_Messages : list (list (string * string));
  oai_Temperature : Q;
  oai_MaxTokens : Z
}.

(** [Choices[i].Message.Content] is kept as the string itself. *)
Record OpenAIResponse := {
  Choices : list string;
  Usage_TotalTokens : Z
}.

(** What [client.Do] hands back when the round trip worked: the status and
    the outcome of [io.ReadAll] on the body. *)
Record http_reply := {
  StatusCode : Z;
  Body : error + string
}.

(** What the handler writes to the [http.ResponseWriter]. *)
Inductive response_body :=
| PlainText (msg : string)
| JSONError (msg : string)
| JSONReply (r : APIResponse).

Record http_response := {
  Status : Z;
  Payload : response_body
}.

Definition StatusOK : Z := 200.
Definition StatusBadRequest : Z := 400.
Definition StatusUnauthorized : Z := 401.
Definition StatusTooManyRequests : Z := 429.
Definition StatusInternalServerError : Z := 500.

(** [http.Error(w, msg, code)] *)
Definition http_Error (msg : string) (code : Z) : http_response :=
  {| Status := code; Payload := PlainText msg |}.

(** An inbound request, after [store.Get]: the [user_id] of the session
    cookie (the login callback stores the [int] returned by [saveUser]) and
    the raw body. *)
Record http_request := {
  session_user_id : option Z;
  request_body : string
}.

(** ** The datastore *)

Record usage_row := {
  chat_count : Z;
  token_count : Z
}.

Record session_row := {
  s_id : Z;
  s_user_id : Z;
  s_title : string;
  s_model : string
}.

Record message_row := {
  m_id : Z;
  m_session_id : Z;
  m_role : string;
  m_content : string;
  m_model : string;
  m_tokens_used : option Z
}.

(** [user_usage] carries [UNIQUE(user_id, date)], hence a finite map keyed
    by that pair.  Rows of this table are only ever written by
    [recordUsage], which stores integers in both counters, so the columns
    are not modelled as nullable and [COALESCE(chat_count, 0)] is the
    column itself.  The two history tables are append-only lists with
    their [SERIAL] counters, of which only the freshness of the ids they
    hand out matters.  [db_today] is the datastore's [CURRENT_DATE],
    counted in days. *)
Record database := {
  user_usage : gmap (Z * Z) usage_row;
  chat_sessions : list session_row;
  chat_messages : list message_row;
  next_session_id : Z;
  next_message_id : Z;
  db_today : Z
}.

Definition empty_database (today : Z) : database :=
  {| user_usage := ∅; chat_sessions := []; chat_messages := [];
     next_session_id := 1; next_message_id := 1; db_today := today |}.

Definition set_user_usage (u : gmap (Z * Z) usage_row) (d : database) : database :=
  {| user_usage := u; chat_sessions := chat_sessions d;
     chat_messages := chat_messages d;
     next_session_id := next_session_id d;
     next_message_id := next_message_id d; db_today := db_today d |}.

Definition add_session (r : session_row) (d : database) : database :=
  {| user_usage := user_usage d; chat_sessions := chat_sessions d ++ [r];
     chat_messages := chat_messages d;
     next_session_id := next_session_id d + 1;
     next_message_id := next_message_id d; db_today := db_today d |}.

Definition add_message (r : message_row) (d : database) : database :=
  {| user_usage := user_usage d; chat_sessions := chat_sessions d;
     chat_messages := chat_messages d ++ [r];
     next_session_id := next_session_id d;
     next_message_id := next_message_id d + 1; db_today := db_today d |}.

(** Midnight passes on the datastore's clock. *)
Definition next_day (d : database) : database :=
  {| user_usage := user_usage d; chat_sessions := chat_sessions d;
     chat_messages := chat_messages d;
     next_session_id := next_session_id d;
     next_message_id := next_message_id d; db_today := db_today d + 1 |}.

(** ** Actions *)

(** One constructor per call that leaves the process.  The four datastore
    actions are the four SQL statements of the chat path, each sent in a
    round trip of its own. *)
Inductive action :=
| Getenv (key : string)
| ClientDo (bearer : string) (req : OpenAIRequest)
| SelectUsage (userID : Z)
| UpsertUsage (userID : Z) (tokens : Z)
| InsertSession (userID : Z) (title model : string)
| InsertMessage (sessionID : Z) (role content model : string) (tokens : option Z)
| LogPrintf (msg : string).

Definition result (a : action) : Type :=
  match a with
  | Getenv _ => string
  | ClientDo _ _ => (error + http_reply)%type
  | SelectUsage _ => (error + Z)%type
  | UpsertUsage _ _ => option error
  | InsertSession _ _ _ => (error + Z)%type
  | InsertMessage _ _ _ _ _ => option error
  | LogPrintf _ => unit
  end.

Definition is_write (a : action) : bool :=
  match a with
  | UpsertUsage _ _ | InsertSession _ _ _ | InsertMessage _ _ _ _ _ => true
  | _ => false
  end.

(** The collaborators as seen by one request.  [db_fault] is the datastore
    refusing a statement for a reason of its own (connection lost,
    constraint or range violated, ...); the program only ever sees the
    resulting [error]. *)
Record env := {
  os_Getenv : string -> string;
  client_Do : string -> OpenAIRequest -> error + http_reply;
  db_fault : action -> option error
}.

(** [sql.ErrNoRows], returned by [Scan] when the [SELECT] finds nothing. *)
Definition ErrNoRows : error := "sql: no rows in result set".

(** The [ON CONFLICT (user_id, date) DO UPDATE] of [recordUsage]. *)
Definition upsert_row (old : option usage_row) (tokens : Z) : usage_row :=
  match old with
  | None => {| chat_count := 1; token_count := tokens |}
  | Some r => {| chat_count := chat_count r + 1;
                 token_count := token_count r + tokens |}
  end.

(** Effect of one action on the datastore, and the value handed back to
    the program.  A refused statement changes nothing. *)
Definition perform (e : env) (a : action) (d : database) : result a * database :=
  match a return result a * database with
  | Getenv key => (os_Getenv e key, d)
  | ClientDo bearer req => (client_Do e bearer req, d)
  | SelectUsage userID =>
      match db_fault e (SelectUsage userID) with
      | Some err => (inl err, d)
      | None =>
          match user_usage d !! (userID, db_today d) with
          | None => (inl ErrNoRows, d)
          | Some r => (inr (chat_count r), d)
          end
      end
  | UpsertUsage userID tokens =>
      match db_fault e (UpsertUsage userID tokens) with
      | Some err => (Some err, d)
      | None =>
          let key := (userID, db_today d) in
          (None,
           set_user_usage
             (<[key := upsert_row (user_usage d !! key) tokens]> (user_usage d)) d)
      end
  | InsertSession userID title model =>
      match db_fault e (InsertSession userID title model) with
      | Some err => (inl err, d)
      | None =>
          let id := next_session_id d in
          (inr id,
           add_session {| s_id := id; s_user_id := userID;
                          s_title := title; s_model := model |} d)
      end
  | InsertMessage sessionID role content model tokens =>
      match db_fault e (InsertMessage sessionID role content model tokens) with
      | Some err => (Some err, d)
      | None =>
          (None,
           add_message {| m_id := next_message_id d; m_session_id := sessionID;
                          m_role := role; m_content := content;
                          m_model := model; m_tokens_used := tokens |} d)
      end
  | LogPrintf _ => (tt, d)
  end.

(** ** Programs *)

Inductive prog (R : Type) : Type :=
| Ret (r : R)
| Act (a : action) (k : result a -> prog R).
Arguments Ret {R} r.
Arguments Act {R} a k.

Fixpoint bind {A B : Type} (p : prog A) (f : A -> prog B) : prog B :=
  match p with
  | Ret r => f r
  | Act a k => Act a (fun x => bind (k x) f)
  end.

Definition call (a : action) : prog (result a) := Act a Ret.

#[global] Instance prog_ret : MRet prog := @Ret.
#[global] Instance prog_bind : MBind prog := fun A B f p => bind p f.

(** Running a program alone: every action is performed on the datastore as
    the previous one left it.  The trace lists the actions in order. *)
Fixpoint run {R : Type} (e : env) (p : prog R) (d : database)
  : R * database * list action :=
  match p with
  | Ret r => (r, d, [])
  | Act a k =>
      let '(x, d1) := perform e a d in
      let '(r, d2, t) := run e (k x) d1 in
      (r, d2, a :: t)
  end.

(** ** The Go functions of the chat path *)

Definition newline : string := String "010"%char EmptyString.

(** The daily limit, written as the literal [50] in [checkUsageLimit] and
    in the message of the 429 reply. *)
Definition daily_limit : Z := 50.

Definition quota_message : string := "使用制限に達しました。本日の制限: 50回".

Definition claude_placeholder (message : string) : string :=
  "Claude APIは開発中です。現在はテスト応答を返しています:" +:+ newline +:+ newline +:+
  "あなたの質問「" +:+ message +:+ "」について、Claude 3からの応答をシミュレートしています。".

Definition gemini_placeholder (message : string) : string :=
  "Gemini APIは開発中です。現在はテスト応答を返しています:" +:+ newline +:+ newline +:+
  "あなたの質問「" +:+ message +:+ "」について、Gemini 1.5からの応答をシミュレートしています。".

(** [func checkUsageLimit(userID int) bool] *)
Definition checkUsageLimit (userID : Z) : prog bool :=
  r ← call (SelectUsage userID);
  match r with
  | inl _ => mret true
  | inr chatCount => mret (chatCount <? 50)
  end.

(** [func recordUsage(userID int, model string, tokens int) error]:
    one [db.Exec]. *)
Definition recordUsage (userID : Z) (model : string) (tokens : Z)
  : prog (option error) :=
  call (UpsertUsage userID tokens).

(** The title computed at the head of [saveChatHistory]; [len] and the
    slice [title[:47]] count bytes. *)
Definition session_title (userMessage : string) : string :=
  if (50 <? String.length userMessage)%nat
  then substring 0 47 userMessage +:+ "..."
  else userMessage.

(** [func saveChatHistory(userID int, userMessage, aiResponse, model string,
    tokens int) error] *)
Definition saveChatHistory (userID : Z) (userMessage aiResponse model : string)
    (tokens : Z) : prog (option error) :=
  let title := session_title userMessage in
  r ← call (InsertSession userID title model);
  match r with
  | inl err => mret (Some err)
  | inr sessionID =>
      e1 ← call (InsertMessage sessionID "user" userMessage model None);
      match e1 with
      | Some err => mret (Some err)
      | None =>
          call (InsertMessage sessionID "assistant" aiResponse model (Some tokens))
      end
  end.

(** The [reqBody] built by [callOpenAI]. *)
Definition chat_completion_request (message : string) : OpenAIRequest :=
  {| oai_Model := "gpt-4o";
     oai_Messages := [[("role", "user"); ("content", message)]];
     oai_Temperature := (7 # 10)%Q;
     oai_MaxTokens := 2000 |}.
Arguments chat_completion_request : simpl never.

Section Handler.

(** The two JSON decoders of [encoding/json], as functions of the bytes
    they are given: [Decode] into an [APIRequest] and [Unmarshal] into an
    [OpenAIResponse]. *)
Variable json_Decode : string -> error + APIRequest.
Variable json_Unmarshal : string -> error + OpenAIResponse.

(** [func callOpenAI(message string) (string, int, error)].
    [json.Marshal] of the request value and [http.NewRequest] with the
    constant method and URL have no failing case; the bearer token is kept
    with the request handed to [client.Do]. *)
Definition callOpenAI (message : string) : prog (string * Z * option error) :=
  apiKey ← call (Getenv "OPENAI_API_KEY");
  if String.eqb apiKey ""
  then mret ("", 0, Some "OpenAI API key not configured")
  else
    let reqBody := chat_completion_request message in
    r ← call (ClientDo apiKey reqBody);
    match r with
    | inl err => mret ("", 0, Some err)
    | inr resp =>
        match Body resp with
        | inl err => mret ("", 0, Some err)
        | inr body =>
            if negb (StatusCode resp =? 200)
            then mret ("", 0, Some ("OpenAI API error: " +:+ body))
            else
              match json_Unmarshal body with
              | inl err => mret ("", 0, Some err)
              | inr apiResp =>
                  match Choices apiResp with
                  | [] => mret ("", 0, Some "no response from OpenAI API")
                  | c :: _ => mret (c, Usage_TotalTokens apiResp, None)
                  end
              end
        end
    end.

(** [func callLLMAPI(message, model string) (string, int, error)] *)
Definition callLLMAPI (message model : string) : prog (string * Z * option error) :=
  if String.eqb model "gpt-4o" then callOpenAI message
  else if String.eqb model "claude-3" then
    mret (claude_placeholder message, 100, None)
  else if String.eqb model "gemini" then
    mret (gemini_placeholder message, 100, None)
  else callOpenAI message.

(** [if err := f(); err != nil { log.Printf(...) }] *)
Definition log_if_error (what : string) (e : option error) : prog unit :=
  match e with
  | Some err => call (LogPrintf (what +:+ err))
  | None => mret tt
  end.

(** [func apiChatHandler(w http.ResponseWriter, r *http.Request)] *)
Definition apiChatHandler (r : http_request) : prog http_response :=
  match session_user_id r with
  | None => mret (http_Error "Unauthorized" StatusUnauthorized)
  | Some userID =>
      match json_Decode (request_body r) with
      | inl err =>
          _ ← call (LogPrintf ("Invalid JSON: " +:+ err));
          mret (http_Error "Invalid JSON" StatusBadRequest)
      | inr req =>
          allowed ← checkUsageLimit userID;
          if negb allowed
          then mret {| Status := StatusTooManyRequests;
                       Payload := JSONError quota_message |}
          else
            '(response, tokens, err) ← callLLMAPI (req_Message req) (req_Model req);
            match err with
            | Some err =>
                _ ← call (LogPrintf ("LLM API error: " +:+ err));
                mret {| Status := StatusInternalServerError;
                        Payload := JSONError ("AI APIでエラーが発生しました: " +:+ err) |}
            | None =>
                e1 ← recordUsage userID (req_Model req) tokens;
                _ ← log_if_error "Failed to record usage: " e1;
                e2 ← saveChatHistory userID (req_Message req) response
                       (req_Model req) tokens;
                _ ← log_if_error "Failed to save chat history: " e2;
                mret {| Status := StatusOK;
                        Payload := JSONReply {| resp_Response := response;
                                                resp_Model := req_Model req;
                                                resp_Tokens := tokens |} |}
            end
      end
  end.


(** ** Several requests sharing the datastore *)

(** A request being served: its collaborators and what is left of its
    handler.  [net/http] serves every request in a goroutine of its own;
    the only thing requests share is the datastore, and each statement is
    executed there on its own, so one step of the system is one action of
    one request. *)
Record thread := {
  t_env : env;
  t_prog : prog http_response
}.

Record system := {
  sys_db : database;
  sys_pool : list thread
}.

Inductive sched_step :=
| Step (i : nat)
| Midnight.

Definition thread_step (t : thread) (d : database) : option (thread * database) :=
  match t_prog t with
  | Ret _ => None
  | Act a k =>
      let '(x, d1) := perform (t_env t) a d in
      Some ({| t_env := t_env t; t_prog := k x |}, d1)
  end.

Definition sys_step (l : sched_step) (s : system) : option system :=
  match l with
  | Midnight => Some {| sys_db := next_day (sys_db s); sys_pool := sys_pool s |}
  | Step i =>
      match sys_pool s !! i with
      | None => None
      | Some t =>
          match thread_step t (sys_db s) with
          | None => None
          | Some (t1, d1) =>
              Some {| sys_db := d1; sys_pool := <[i := t1]> (sys_pool s) |}
          end
      end
  end.

Fixpoint exec (sched : list sched_step) (s : system) : option system :=
  match sched with
  | [] => Some s
  | l :: rest =>
      match sys_step l s with
      | None => None
      | Some s1 => exec rest s1
      end
  end.


(** ** Requests served one at a time *)

(** Running a program alone while the datastore's date may advance:
    [ticks] gives, for each successive action, how many midnights pass
    just before it.  The unused part of [ticks] is returned. *)
Fixpoint run_ticking {R : Type} (e : env) (p : prog R) (ticks : list nat)
    (d : database) : R * database * list nat :=
  match p with
  | Ret r => (r, d, ticks)
  | Act a k =>
      let d0 := Nat.iter (hd 0%nat ticks) next_day d in
      let '(x, d1) := perform e a d0 in
      run_ticking e (k x) (tl ticks) d1
  end.

Record turn := {
  turn_env : env;
  turn_request : http_request;
  turn_ticks : list nat
}.




Definition is_upsert (a : action) : bool :=
  match a with UpsertUsage _ _ => true | _ => false end.

Definition is_history (a : action) : bool :=
  match a with
  | InsertSession _ _ _ | InsertMessage _ _ _ _ _ => true
  | _ => false
  end.

(** No action that the program can ever issue satisfies [f]. *)
Fixpoint never {R : Type} (f : action -> bool) (p : prog R) : Prop :=
  match p with
  | Ret _ => True
  | Act a k => f a = false /\ forall x, never f (k x)
  end.

(** ** Text measures used in the statements *)

(** Number of UTF-8 encoded characters of a byte string: every byte that
    is not a continuation byte ([10xxxxxx]) starts one. *)
Definition is_continuation (c : ascii) : bool :=
  let n := nat_of_ascii c in ((128 <=? n) && (n <? 192))%nat.

Fixpoint utf8_length (s : string) : nat :=
  match s with
  | EmptyString => 0
  | String c rest =>
      if is_continuation c then utf8_length rest else S (utf8_length rest)
  end.

Definition single_byte (c : ascii) : bool := (nat_of_ascii c <? 128)%nat.

Fixpoint all_single_byte (s : string) : bool :=
  match s with
  | EmptyString => true
  | String c rest => single_byte c && all_single_byte rest
  end.

(** ** Fixtures for the examples *)

(** A decoder given by a table from bodies to decoded values; any other
    body is a syntax error. *)
Fixpoint decode_table {A : Type} (tbl : list (string * A)) (body : string)
  : error + A :=
  match tbl with
  | [] => inl "invalid character"
  | (b, v) :: rest => if String.eqb b body then inr v else decode_table rest body
  end.

Definition scenario_message : string :=
  "Draft a product announcement email for our Q3 launch".

(** Seventeen three-byte characters. *)
Definition kana_message : string :=
  "あいうえおかきくけこさしすせそたち".

Definition sample_requests : list (string * APIRequest) :=
  [ ("hello-claude", {| req_Message := "hello"; req_Model := "claude-3" |});
    ("hello-gemini", {| req_Message := "hello"; req_Model := "gemini" |});
    ("hello-gpt", {| req_Message := "hello"; req_Model := "gpt-4o" |});
    ("hello-llama", {| req_Message := "hello"; req_Model := "llama-3" |});
    ("draft-claude", {| req_Message := scenario_message; req_Model := "claude-3" |});
    ("kana-claude", {| req_Message := kana_message; req_Model := "claude-3" |}) ].

Definition sample_Decode : string -> error + APIRequest :=
  decode_table sample_requests.

Definition sample_Unmarshal : string -> error + OpenAIResponse :=
  decode_table
    [ ("one-choice", {| Choices := ["Hi there"]; Usage_TotalTokens := 12 |});
      ("no-choice", {| Choices := []; Usage_TotalTokens := 0 |}) ].

Definition no_fault : action -> option error := fun _ => None.

(** A process without the API key and without network. *)
Definition offline_env : env :=
  {| os_Getenv := fun _ => "";
     client_Do := fun _ _ => inl "dial tcp: connection refused";
     db_fault := no_fault |}.

(** The upstream answers every call with status 200 and one choice. *)
Definition online_env : env :=
  {| os_Getenv := fun _ => "sk-test";
     client_Do := fun _ _ => inr {| StatusCode := 200; Body := inr "one-choice" |};
     db_fault := no_fault |}.

(** The upstream answers 503. *)
Definition upstream_down_env : env :=
  {| os_Getenv := fun _ => "sk-test";
     client_Do := fun _ _ => inr {| StatusCode := 503; Body := inr "overloaded" |};
     db_fault := no_fault |}.

(** The datastore refuses the quota read and nothing else. *)
Definition read_refused_env : env :=
  {| os_Getenv := fun _ => "";
     client_Do := fun _ _ => inl "dial tcp: connection refused";
     db_fault := fun a => match a with
                          | SelectUsage _ => Some "driver: bad connection"
                          | _ => None
                          end |}.

(** The datastore refuses every write. *)
Definition writes_refused_env : env :=
  {| os_Getenv := fun _ => "";
     client_Do := fun _ _ => inl "dial tcp: connection refused";
     db_fault := fun a => if is_write a then Some "driver: bad connection" else None |}.

(** The datastore refuses the insert of the assistant message only. *)
Definition assistant_refused_env : env :=
  {| os_Getenv := fun _ => "";
     client_Do := fun _ _ => inl "dial tcp: connection refused";
     db_fault := fun a => match a with
                          | InsertMessage _ "assistant" _ _ _ => Some "driver: bad connection"
                          | _ => None
                          end |}.

(** A store on day 100 in which user 7 has chatted [n] times today. *)
Definition store_with_count (n : Z) : database :=
  set_user_usage {[ (7, 100) := {| chat_count := n; token_count := 0 |} ]}
    (empty_database 100).

Definition request_of (body : string) : http_request :=
  {| session_user_id := Some 7; request_body := body |}.

(** The entries [log.Printf] leaves for a swallowed error. *)
Definition logged (what : string) (e : option error) : list action :=
  match e with
  | Some err => [LogPrintf (what +:+ err)]
  | None => []
  end.

(** The ways the call to the primary model can fail, with the error that
    [callOpenAI] reports for each: no API key, a failed round trip, a body
    that cannot be read, a status other than 200, a body that is not the
    expected JSON, and a reply without choices. *)
Inductive primary_call_fails (e : env) (message : string) : error -> Prop :=
| missing_api_key :
    os_Getenv e "OPENAI_API_KEY" = "" ->
    primary_call_fails e message "OpenAI API key not configured"
| network_error err :
    os_Getenv e "OPENAI_API_KEY" <> "" ->
    client_Do e (os_Getenv e "OPENAI_API_KEY") (chat_completion_request message) = inl err ->
    primary_call_fails e message err
| body_read_error reply err :
    os_Getenv e "OPENAI_API_KEY" <> "" ->
    client_Do e (os_Getenv e "OPENAI_API_KEY") (chat_completion_request message) = inr reply ->
    Body reply = inl err ->
    primary_call_fails e message err
| upstream_status reply body :
    os_Getenv e "OPENAI_API_KEY" <> "" ->
    client_Do e (os_Getenv e "OPENAI_API_KEY") (chat_completion_request message) = inr reply ->
    Body reply = inr body ->
    StatusCode reply <> 200 ->
    primary_call_fails e message ("OpenAI API error: " +:+ body)
| malformed_json reply body err :
    os_Getenv e "OPENAI_API_KEY" <> "" ->
    client_Do e (os_Getenv e "OPENAI_API_KEY") (chat_completion_request message) = inr reply ->
    Body reply = inr body ->
    StatusCode reply = 200 ->
    json_Unmarshal body = inl err ->
    primary_call_fails e message err
| empty_choices reply body apiResp :
    os_Getenv e "OPENAI_API_KEY" <> "" ->
    client_Do e (os_Getenv e "OPENAI_API_KEY") (chat_completion_request message) = inr reply ->
    Body reply = inr body ->
    StatusCode reply = 200 ->
    json_Unmarshal body = inr apiResp ->
    Choices apiResp = [] ->
    primary_call_fails e message "no response from OpenAI API".

(** What the handler does once the provider has answered: lines 625-638. *)
Definition after_reply (userID : Z) (req : APIRequest) (response : string)
    (tokens : Z) : prog http_response :=
  e1 ← recordUsage userID (req_Model req) tokens;
  _ ← log_if_error "Failed to record usage: " e1;
  e2 ← saveChatHistory userID (req_Message req) response (req_Model req) tokens;
  _ ← log_if_error "Failed to save chat history: " e2;
  mret {| Status := StatusOK;
          Payload := JSONReply {| resp_Response := response;
                                  resp_Model := req_Model req;
                                  resp_Tokens := tokens |} |}.

(** One turn served alone, and a sequence of turns served one after the
    other: the next handler starts when the previous one has returned. *)
Definition serve (t : turn) (d : database) : database :=
  (run_ticking (turn_env t) (apiChatHandler (turn_request t)) (turn_ticks t) d).1.2.

Definition serve_serially (turns : list turn) (d : database) : database :=
  fold_left (fun d t => serve t d) turns d.


(** The goroutine that serves a turn. *)
Definition thread_of (t : turn) : thread :=
  {| t_env := turn_env t; t_prog := apiChatHandler (turn_request t) |}.

(** Two requests of user 7 to a stubbed model, in flight at once. *)
Definition racing_pool : list thread :=
  [ {| t_env := offline_env; t_prog := apiChatHandler (request_of "hello-claude") |};
    {| t_env := offline_env; t_prog := apiChatHandler (request_of "hello-claude") |} ].

(** Both quota reads are scheduled before either upsert; then both
    handlers run to their end. *)
Definition race_schedule : list sched_step :=
  [Step 0; Step 1; Step 0; Step 1;
   Step 0; Step 0; Step 0; Step 1; Step 1; Step 1]%nat.

(** The schedule that lets request [i] run alone to its end from store
    [d], with the midnights of [ticks] placed before its actions. *)
Fixpoint solo_schedule {R : Type} (i : nat) (e : env) (p : prog R)
    (ticks : list nat) (d : database) : list sched_step :=
  match p with
  | Ret _ => []
  | Act a k =>
      let d0 := Nat.iter (hd 0%nat ticks) next_day d in
      let '(x, d1) := perform e a d0 in
      replicate (hd 0%nat ticks) Midnight ++ Step i :: solo_schedule i e (k x) (tl ticks) d1
  end.

(** Requests [i], [i+1], ... served one after the other. *)
Fixpoint serial_schedule (i : nat) (turns : list turn) (d : database)
  : list sched_step :=
  match turns with
  | [] => []
  | t :: rest =>
      solo_schedule i (turn_env t) (apiChatHandler (turn_request t)) (turn_ticks t) d ++
      serial_schedule (S i) rest (serve t d)
  end.


(** A thread that has returned. *)
Definition finished (t : thread) : Prop := exists r, t_prog t = Ret r.



(** ** Measures on the store used in the statements *)

(** Today's chat count of a user, a missing row counting as zero. *)
Definition count_today (userID : Z) (d : database) : Z :=
  match user_usage d !! (userID, db_today d) with
  | Some r => chat_count r
  | None => 0
  end.

(** A turn of user [userID] in which nothing goes wrong: the body decodes,
    the provider answers, the datastore accepts the quota read and the
    upsert, and no midnight falls inside the turn. *)
Definition plain_turn (userID : Z) (t : turn) : Prop :=
  session_user_id (turn_request t) = Some userID /\
  turn_ticks t = [] /\
  db_fault (turn_env t) (SelectUsage userID) = None /\
  (forall tokens, db_fault (turn_env t) (UpsertUsage userID tokens) = None) /\
  exists req,
    json_Decode (request_body (turn_request t)) = inr req /\
    forall d, (run (turn_env t) (callLLMAPI (req_Message req) (req_Model req)) d).1.1.2 = None.

(** Ids handed out so far are below the counters and pairwise distinct,
    and every message belongs to a stored session. *)
Definition history_wf (d : database) : Prop :=
  Forall (fun s => s_id s < next_session_id d) (chat_sessions d) /\
  NoDup (map s_id (chat_sessions d)) /\
  Forall (fun m => m_id m < next_message_id d) (chat_messages d) /\
  NoDup (map m_id (chat_messages d)) /\
  Forall (fun m => In (m_session_id m) (map s_id (chat_sessions d))) (chat_messages d).

(** Every action of a trace is a log entry. *)
Definition only_logs (t : list action) : bool :=
  forallb (fun a => match a with LogPrintf _ => true | _ => false end) t.

(** Today's token count of a user, a missing row counting as zero. *)
Definition tokens_today (userID : Z) (d : database) : Z :=
  match user_usage d !! (userID, db_today d) with
  | Some r => token_count r
  | None => 0
  end.

(** What one turn may add to the history: nothing; or one session with
    the next session id and, belonging to it, no message, the user message
    alone, or the user message followed by the assistant message, numbered
    from the next message id. *)
Definition history_step (d d' : database) : Prop :=
  exists ns nm,
    chat_sessions d' = chat_sessions d ++ ns /\
    chat_messages d' = chat_messages d ++ nm /\
    next_session_id d' = next_session_id d + Z.of_nat (length ns) /\
    next_message_id d' = next_message_id d + Z.of_nat (length nm) /\
    (ns = [] /\ nm = [] \/
     map s_id ns = [next_session_id d] /\
     Forall (fun m => m_session_id m = next_session_id d) nm /\
     (map (fun m => (m_id m, m_role m)) nm = [] \/
      map (fun m => (m_id m, m_role m)) nm = [(next_message_id d, "user")] \/
      map (fun m => (m_id m, m_role m)) nm =
        [(next_message_id d, "user"); (next_message_id d + 1, "assistant")])).

(** Requests served one after the other, each with its own collaborators. *)
Definition serve_all (turns : list (env * http_request)) (d : database) : database :=
  fold_left (fun d t => (run t.1 (apiChatHandler t.2) d).1.2) turns d.

(** ** Login: the users table, the session cookie and the OAuth callback *)

(** The [userInfo] struct decoded in [googleCallbackHandler]. *)
Record UserInfo := {
  ui_ID : string;
  ui_Email : string;
  ui_Name : string;
  ui_Picture : string
}.

(** A row of [users]; the two timestamps are instants of the datastore's
    clock. *)
Record user_row := {
  u_id : Z;
  u_google_id : string;
  u_email : string;
  u_name : string;
  u_picture : string;
  u_plan : string;
  u_created_at : Z;
  u_updated_at : Z
}.

(** The table with the counter behind its [SERIAL] id. *)
Record users_table := {
  users : list user_row;
  next_user_id : Z
}.

(** [session.Values]: the keys are the strings the handlers use, the
    values the [int] and [string]s they store. *)
Inductive session_value :=
| VInt (n : Z)
| VString (s : string).

(** The calls the login path makes to its collaborators, in order. *)
Inductive auth_call :=
| CallExchange (code : string)
| CallUserInfo (token : string)
| CallSaveUser (googleID email name picture : string).

(** The collaborators of the login path: the token exchange of the OAuth
    configuration, the GET of the user info with the token, the datastore
    refusing the statement of [saveUser], and the datastore's
    [CURRENT_TIMESTAMP]. *)
Record auth_env := {
  oauth_Exchange : string -> error + string;
  userinfo_Get : string -> error + http_reply;
  users_fault : option error;
  db_now : Z
}.

(** What a page handler writes: [http.Error], [http.Redirect], or the chat
    page rendered for a user id and a user name. *)
Inductive auth_response :=
| AError (msg : string) (code : Z)
| ARedirect (url : string) (code : Z)
| AChatPage (userID : Z) (userName : string).

Record auth_result := {
  a_reply : auth_response;
  a_users : users_table;
  a_cookie : option (gmap string session_value);
  a_calls : list auth_call;
  a_log : list string
}.

Record callback_request := {
  form_state : string;
  form_code : string;
  cb_session : gmap string session_value
}.

Definition oauthStateString : string := "businessgpt-random-state".

Definition StatusTemporaryRedirect : Z := 307.

(** The violation of [UNIQUE] on [email], as the driver reports it. *)
Definition email_taken : error :=
  "pq: duplicate key value violates unique constraint users_email_key".

(** The [DO UPDATE SET name, picture, updated_at] applied to the row in
    conflict. *)
Definition refresh_user (googleID name picture : string) (now : Z) (u : user_row)
  : user_row :=
  if String.eqb (u_google_id u) googleID
  then {| u_id := u_id u; u_google_id := u_google_id u; u_email := u_email u;
          u_name := name; u_picture := picture; u_plan := u_plan u;
          u_created_at := u_created_at u; u_updated_at := now |}
  else u.

(** [func saveUser(googleID, email, name, picture string) (int, error)]:
    one [INSERT ... ON CONFLICT (google_id) DO UPDATE ... RETURNING id].
    The id of the proposed row is drawn from the sequence before the
    conflict is looked for, so every execution consumes one value.  A
    conflict on [google_id] turns the insert into the update; without one,
    a row with the same [email] makes the insert fail. *)
Definition saveUser (e : auth_env) (googleID email name picture : string)
    (t : users_table) : Z * option error * users_table :=
  match users_fault e with
  | Some err => (0, Some err, t)
  | None =>
      match List.find (fun u => String.eqb (u_google_id u) googleID) (users t) with
      | Some u =>
          (u_id u, None,
           {| users := map (refresh_user googleID name picture (db_now e)) (users t);
              next_user_id := next_user_id t + 1 |})
      | None =>
          if existsb (fun u => String.eqb (u_email u) email) (users t)
          then (0, Some email_taken,
                {| users := users t; next_user_id := next_user_id t + 1 |})
          else (next_user_id t, None,
                {| users := users t ++
                     [{| u_id := next_user_id t; u_google_id := googleID;
                         u_email := email; u_name := name; u_picture := picture;
                         u_plan := "trial"; u_created_at := db_now e;
                         u_updated_at := db_now e |}];
                   next_user_id := next_user_id t + 1 |})
      end
  end.

(** The user id a session carries for [apiChatHandler] and [chatHandler],
    for sessions written by this server, in which [user_id] is an [int]. *)
Definition session_user (s : gmap string session_value) : option Z :=
  match s !! "user_id" with
  | Some (VInt n) => Some n
  | _ => None
  end.

Definition api_request (s : gmap string session_value) (body : string) : http_request :=
  {| session_user_id := session_user s; request_body := body |}.

(** [user_id], when present, is an [int]: the type assertions
    [userID.(int)] of the handlers succeed. *)
Definition typed_session (s : gmap string session_value) : Prop :=
  forall v, s !! "user_id" = Some v -> exists n, v = VInt n.

(** [json.NewDecoder(resp.Body).Decode(&userInfo)]. *)
Variable json_DecodeUserInfo : string -> error + UserInfo.

Definition decode_user_info (resp : http_reply) : error + UserInfo :=
  match Body resp with
  | inl err => inl err
  | inr body => json_DecodeUserInfo body
  end.

(** [func googleCallbackHandler(w http.ResponseWriter, r *http.Request)] *)
Definition googleCallbackHandler (e : auth_env) (r : callback_request)
    (t : users_table) : auth_result :=
  let state := form_state r in
  if negb (String.eqb state oauthStateString)
  then {| a_reply := AError "Invalid state" StatusBadRequest; a_users := t;
          a_cookie := None; a_calls := [];
          a_log := ["Invalid OAuth state: " +:+ state] |}
  else
    let code := form_code r in
    match oauth_Exchange e code with
    | inl err =>
        {| a_reply := AError "Failed to exchange token" StatusInternalServerError;
           a_users := t; a_cookie := None; a_calls := [CallExchange code];
           a_log := ["Failed to exchange token: " +:+ err] |}
    | inr token =>
        match userinfo_Get e token with
        | inl err =>
            {| a_reply := AError "Failed to get user info" StatusInternalServerError;
               a_users := t; a_cookie := None;
               a_calls := [CallExchange code; CallUserInfo token];
               a_log := ["Failed to get user info: " +:+ err] |}
        | inr resp =>
            match decode_user_info resp with
            | inl err =>
                {| a_reply := AError "Failed to decode user info" StatusInternalServerError;
                   a_users := t; a_cookie := None;
                   a_calls := [CallExchange code; CallUserInfo token];
                   a_log := ["Failed to decode user info: " +:+ err] |}
            | inr userInfo =>
                let calls :=
                  [CallExchange code; CallUserInfo token;
                   CallSaveUser (ui_ID userInfo) (ui_Email userInfo)
                     (ui_Name userInfo) (ui_Picture userInfo)] in
                let '(userID, err, t1) :=
                  saveUser e (ui_ID userInfo) (ui_Email userInfo)
                    (ui_Name userInfo) (ui_Picture userInfo) t in
                match err with
                | Some err =>
                    {| a_reply := AError "Failed to save user" StatusInternalServerError;
                       a_users := t1; a_cookie := None; a_calls := calls;
                       a_log := ["Failed to save user: " +:+ err] |}
                | None =>
                    {| a_reply := ARedirect "/chat" StatusTemporaryRedirect;
                       a_users := t1;
                       a_cookie :=
                         Some (<["name" := VString (ui_Name userInfo)]>
                                 (<["email" := VString (ui_Email userInfo)]>
                                    (<["user_id" := VInt userID]> (cb_session r))));
                       a_calls := calls;
                       a_log := ["User logged in: " +:+ ui_Email userInfo +:+
                                 " (" +:+ pretty userID +:+ ")"] |}
                end
            end
        end
    end.

(** [func chatHandler(w http.ResponseWriter, r *http.Request)], for a
    typed session: without [user_id] a redirect to the home page,
    otherwise the chat page for that id and for the [name] of the session
    (empty when it is missing or not a string). *)
Definition chatHandler (s : gmap string session_value) : auth_response :=
  match session_user s with
  | None => ARedirect "/" StatusTemporaryRedirect
  | Some userID =>
      let userName := match s !! "name" with
                      | Some (VString n) => n
                      | _ => ""
                      end in
      AChatPage userID userName
  end.

(** [func logoutHandler(w http.ResponseWriter, r *http.Request)]: the
    session is emptied and saved, and the browser is sent home. *)
Definition logoutHandler (s : gmap string session_value)
  : auth_response * gmap string session_value :=
  (ARedirect "/" StatusTemporaryRedirect, ∅).

(** The users table as the unique constraints and the sequence keep it:
    ids below the counter, and ids, Google ids and emails pairwise
    distinct. *)
Definition users_wf (t : users_table) : Prop :=
  Forall (fun u => u_id u < next_user_id t) (users t) /\
  NoDup (map u_id (users t)) /\
  NoDup (map u_google_id (users t)) /\
  NoDup (map u_email (users t)).

(** The row of a Google account. *)
Definition user_of (googleID : string) (t : users_table) : option user_row :=
  List.find (fun u => String.eqb (u_google_id u) googleID) (users t).

(** ** Startup *)

(** The four [CREATE TABLE IF NOT EXISTS] statements of [createTables],
    named by their table, in the order of the [queries] slice. *)
Inductive table :=
| TUsers
| TChatSessions
| TChatMessages
| TUserUsage.

Definition queries : list table :=
  [TUsers; TChatSessions; TChatMessages; TUserUsage].

(** The collaborators at startup: the process environment, [sql.Open],
    [db.Ping], and [db.Exec] on each statement. *)
Record startup_env := {
  start_Getenv : string -> string;
  sql_Open : string -> option error;
  db_Ping : option error;
  db_ExecCreate : table -> option error
}.

(** The loop of [createTables] over any slice of statements: each one is
    executed; an error is logged and the loop goes on.  The result lists
    the statements executed and the log lines. *)
Fixpoint create_each (e : startup_env) (qs : list table) : list table * list string :=
  match qs with
  | [] => ([], [])
  | q :: rest =>
      let '(done, log) := create_each e rest in
      match db_ExecCreate e q with
      | Some err => (q :: done, ("Error creating table: " +:+ err) :: log)
      | None => (q :: done, log)
      end
  end.

(** [func createTables()] *)
Definition createTables (e : startup_env) : list table * list string :=
  create_each e queries.

(** How startup ends: [log.Fatal] exits the process with a message, or
    the server goes on with the statements executed and the lines logged
    so far. *)
Inductive startup :=
| Fatal (msg : string)
| Running (executed : list table) (log : list string).

(** [func initDB()] *)
Definition initDB (e : startup_env) : startup :=
  let dbURL := start_Getenv e "DATABASE_URL" in
  if String.eqb dbURL "" then Fatal "DATABASE_URL is required"
  else
    match sql_Open e dbURL with
    | Some err => Fatal ("Failed to connect to database:" +:+ err)
    | None =>
        match db_Ping e with
        | Some err => Fatal ("Failed to ping database:" +:+ err)
        | None =>
            let '(done, log) := createTables e in
            Running done (log ++ ["✅ Database connected successfully"])
        end
    end.

(** ** Fixtures for the login examples *)

Definition alice : user_row :=
  {| u_id := 1; u_google_id := "g-alice"; u_email := "alice@example.com";
     u_name := "Alice"; u_picture := "a.png"; u_plan := "pro";
     u_created_at := 10; u_updated_at := 10 |}.

Definition one_user : users_table :=
  {| users := [alice]; next_user_id := 2 |}.

Definition sample_DecodeUserInfo : string -> error + UserInfo :=
  decode_table
    [ ("alice-info", {| ui_ID := "g-alice"; ui_Email := "alice@new.example.com";
                        ui_Name := "Alice L."; ui_Picture := "b.png" |});
      ("bob-info", {| ui_ID := "g-bob"; ui_Email := "bob@example.com";
                      ui_Name := "Bob"; ui_Picture := "bob.png" |}) ].

(** Google answers for two accounts; the datastore accepts the statement
    at instant 20. *)
Definition google_env : auth_env :=
  {| oauth_Exchange := fun code =>
       if String.eqb code "code-alice" then inr "token-alice"
       else if String.eqb code "code-bob" then inr "token-bob"
       else inl "oauth2: cannot fetch token";
     userinfo_Get := fun token =>
       if String.eqb token "token-alice"
       then inr {| StatusCode := 200; Body := inr "alice-info" |}
       else if String.eqb token "token-bob"
       then inr {| StatusCode := 200; Body := inr "bob-info" |}
       else inl "Get: unauthorized";
     users_fault := None;
     db_now := 20 |}.

Definition callback_of (code : string) : callback_request :=
  {| form_state := oauthStateString; form_code := code; cb_session := ∅ |}.

(** ** Well-formed UTF-8 *)

(** The bytes of a string form complete UTF-8 sequences: a lead byte
    announces one, two or three continuation bytes, which must follow;
    [pending] is the number still awaited.  (The finer conditions on the
    second byte of some sequences play no part here.)  A text column of a
    UTF8 datastore only takes such strings. *)
Fixpoint valid_utf8_from (pending : nat) (s : string) : bool :=
  match s with
  | EmptyString => (pending =? 0)%nat
  | String c rest =>
      let n := nat_of_ascii c in
      match pending with
      | O =>
          if (n <? 128)%nat then valid_utf8_from 0 rest
          else if ((194 <=? n) && (n <? 224))%nat then valid_utf8_from 1 rest
          else if ((224 <=? n) && (n <? 240))%nat then valid_utf8_from 2 rest
          else if ((240 <=? n) && (n <? 245))%nat then valid_utf8_from 3 rest
          else false
      | S p => if is_continuation c then valid_utf8_from p rest else false
      end
  end.

Definition valid_utf8 (s : string) : bool := valid_utf8_from 0 s.

(** Forty-nine letters and one two-byte character: 50 characters in 51
    bytes. *)
Definition accent_message : string :=
  "aaaaaaaaaaaaaaaaaaaaaaaaaaaaaaaaaaaaaaaaaaaaaaaaaé".

Definition accent_Decode : string -> error + APIRequest :=
  decode_table
    [ ("accent-claude", {| req_Message := accent_message; req_Model := "claude-3" |}) ].

(** * Properties *)

(** ** Byte strings *)

Lemma length_append (s1 s2 : string) :
  String.length (s1 +:+ s2) = (String.length s1 + String.length s2)%nat.
Proof. induction s1 as [| c s1 IH]; simpl; [reflexivity | rewrite IH; reflexivity]. Qed.

Lemma length_prefix (m : nat) (s : string) :
  (m <= String.length s)%nat -> String.length (substring 0 m s) = m.
Proof.
  revert s. induction m as [| m IH]; intros s Hm.
  - destruct s; reflexivity.
  - destruct s as [| c s]; simpl in *; [lia |]. rewrite IH; [reflexivity | lia].
Qed.

Lemma all_single_byte_append (s1 s2 : string) :
  all_single_byte (s1 +:+ s2) = all_single_byte s1 && all_single_byte s2.
Proof.
  induction s1 as [| c s1 IH]; simpl; [reflexivity |].
  rewrite IH, andb_assoc. reflexivity.
Qed.

Lemma all_single_byte_prefix (m : nat) (s : string) :
  all_single_byte s = true -> all_single_byte (substring 0 m s) = true.
Proof.
  revert s. induction m as [| m IH]; intros s Hs.
  - destruct s; reflexivity.
  - destruct s as [| c s]; simpl in *; [reflexivity |].
    apply andb_true_iff in Hs as [Hc Hs]. rewrite Hc, IH; auto.
Qed.

(** On text made of one-byte characters, bytes and characters coincide. *)
Lemma utf8_length_single_byte (s : string) :
  all_single_byte s = true -> utf8_length s = String.length s.
Proof.
  induction s as [| c s IH]; simpl; [reflexivity |].
  intros H. apply andb_true_iff in H as [Hc Hs].
  unfold single_byte in Hc. apply Nat.ltb_lt in Hc.
  unfold is_continuation.
  destruct (Nat.leb_spec 128 (nat_of_ascii c)); [lia |]. simpl. rewrite IH; auto.
Qed.

(** What [session_title] computes, by byte length. *)
Lemma session_title_short (m : string) :
  (String.length m <= 50)%nat -> session_title m = m.
Proof.
  intros H. unfold session_title.
  destruct (Nat.ltb_spec 50 (String.length m)); [lia | reflexivity].
Qed.

Lemma session_title_long (m : string) :
  (50 < String.length m)%nat ->
  session_title m = substring 0 47 m +:+ "..." /\
  String.length (session_title m) = 50%nat.
Proof.
  intros H. unfold session_title.
  destruct (Nat.ltb_spec 50 (String.length m)); [| lia].
  split; [reflexivity |]. rewrite length_append, length_prefix; [reflexivity | lia].
Qed.

(** ** Running programs *)

Lemma run_bind {A B : Type} (e : env) (p : prog A) (f : A -> prog B) (d : database) :
  run e (bind p f) d =
  let '(x, d1, t1) := run e p d in
  let '(r, d2, t2) := run e (f x) d1 in
  (r, d2, t1 ++ t2).
Proof.
  revert d. induction p as [x | a k IH]; intros d; simpl.
  - destruct (run e (f x) d) as [[r d2] t2]. reflexivity.
  - destruct (perform e a d) as [x d1]. rewrite IH.
    destruct (run e (k x) d1) as [[y d2] t1].
    destruct (run e (f y) d2) as [[r d3] t2]. reflexivity.
Qed.

Lemma run_mbind {A B : Type} (e : env) (p : prog A) (f : A -> prog B) (d : database) :
  run e (p ≫= f) d =
  let '(x, d1, t1) := run e p d in
  let '(r, d2, t2) := run e (f x) d1 in
  (r, d2, t1 ++ t2).
Proof. apply run_bind. Qed.


(** With no midnight in between, serving alone is [run]. *)
Lemma run_ticking_nil {R : Type} (e : env) (p : prog R) (d : database) :
  run_ticking e p [] d = ((run e p d).1.1, (run e p d).1.2, []).
Proof.
  revert d. induction p as [r | a k IH]; intros d; simpl; [reflexivity |].
  destruct (perform e a d) as [x d1]. rewrite IH.
  destruct (run e (k x) d1) as [[r d2] t]. reflexivity.
Qed.

(** ** Dispatch *)

(** C8: a model name outside the enumerated set is dispatched exactly as
    the primary model is: the program run for it is [callOpenAI] on the
    same message, which is also the program run for ["gpt-4o"]; the
    dispatch itself returns no error. *)
Theorem callLLMAPI_unknown_model_is_primary (message model : string) :
  model <> "gpt-4o" -> model <> "claude-3" -> model <> "gemini" ->
  callLLMAPI message model = callOpenAI message /\
  callLLMAPI message model = callLLMAPI message "gpt-4o".
Proof.
  intros H1 H2 H3. unfold callLLMAPI.
  apply String.eqb_neq in H1, H2, H3. rewrite H1, H2, H3. simpl. split; reflexivity.
Qed.


(** ** The quota check *)

Lemma run_checkUsageLimit (e : env) (userID : Z) (d : database) :
  run e (checkUsageLimit userID) d =
  (match (perform e (SelectUsage userID) d).1 with
   | inl _ => true
   | inr chatCount => chatCount <? 50
   end, d, [SelectUsage userID]).
Proof.
  unfold checkUsageLimit. simpl.
  destruct (db_fault e (SelectUsage userID)) as [err |]; simpl; [reflexivity |].
  destruct (user_usage d !! (userID, db_today d)) as [r |]; reflexivity.
Qed.

(** C10: the quota check fails open.  Whenever the read of today's row
    hands back an error, the check answers [true] and changes nothing; the
    error is either [sql.ErrNoRows] for a missing row or whatever failure
    the datastore reported, with no distinction between the two; and the
    check answers [false] only when the read succeeded with a count of at
    least 50. *)
Theorem checkUsageLimit_fails_open (e : env) (userID : Z) (d : database) (err : error) :
  (perform e (SelectUsage userID) d).1 = inl err ->
  run e (checkUsageLimit userID) d = (true, d, [SelectUsage userID]) /\
  (db_fault e (SelectUsage userID) = Some err \/
   db_fault e (SelectUsage userID) = None /\
   user_usage d !! (userID, db_today d) = None /\ err = ErrNoRows) /\
  (forall d', (run e (checkUsageLimit userID) d').1.1 = false ->
     exists r, db_fault e (SelectUsage userID) = None /\
               user_usage d' !! (userID, db_today d') = Some r /\
               daily_limit <= chat_count r).
Proof.
  intros Hread. rewrite run_checkUsageLimit, Hread. split; [reflexivity |]. split.
  - simpl in Hread. destruct (db_fault e (SelectUsage userID)) as [x |].
    + left. simpl in Hread. congruence.
    + right. destruct (user_usage d !! (userID, db_today d)); simpl in Hread;
        [discriminate | split; [reflexivity | split; [reflexivity | congruence]]].
  - intros d' Hfalse. rewrite run_checkUsageLimit in Hfalse. simpl in Hfalse.
    destruct (db_fault e (SelectUsage userID)); simpl in Hfalse; [discriminate |].
    destruct (user_usage d' !! (userID, db_today d')) as [r |]; simpl in Hfalse;
      [| discriminate].
    exists r. apply Z.ltb_ge in Hfalse. unfold daily_limit. auto.
Qed.

(** ** Usage recording *)

(** C5: [recordUsage] is one statement, the upsert, and nothing else (no
    read precedes it), so that among concurrent requests it is a single
    step applied to the row as it stands at that instant.  When the
    datastore accepts it, the row of (user, today) is created with chat
    count 1 and the token cost if it was missing, and otherwise has its
    chat count raised by 1 and its token count by the token cost; every
    other row and table is left alone.  When the datastore refuses it,
    nothing changes. *)
Theorem recordUsage_single_upsert (e : env) (userID : Z) (model : string)
    (tokens : Z) (d : database) (k : option error -> prog http_response) :
  let key := (userID, db_today d) in
  let out := run e (recordUsage userID model tokens) d in
  recordUsage userID model tokens = Act (UpsertUsage userID tokens) Ret /\
  out.2 = [UpsertUsage userID tokens] /\
  thread_step {| t_env := e; t_prog := bind (recordUsage userID model tokens) k |} d =
    Some ({| t_env := e; t_prog := k out.1.1 |}, out.1.2) /\
  match db_fault e (UpsertUsage userID tokens) with
  | Some err => out.1.1 = Some err /\ out.1.2 = d
  | None =>
      out.1.1 = None /\
      (user_usage d !! key = None ->
       user_usage out.1.2 !! key = Some {| chat_count := 1; token_count := tokens |}) /\
      (forall r, user_usage d !! key = Some r ->
       user_usage out.1.2 !! key =
         Some {| chat_count := chat_count r + 1; token_count := token_count r + tokens |}) /\
      (forall other, other <> key ->
       user_usage out.1.2 !! other = user_usage d !! other) /\
      chat_sessions out.1.2 = chat_sessions d /\
      chat_messages out.1.2 = chat_messages d /\
      db_today out.1.2 = db_today d
  end.
Proof.
  intros key out. split; [reflexivity |]. subst out. unfold recordUsage, thread_step. simpl.
  destruct (db_fault e (UpsertUsage userID tokens)) as [err |]; simpl.
  - auto.
  - fold key. repeat split.
    + intros Hnone. rewrite lookup_insert_eq, Hnone. reflexivity.
    + intros r Hr. rewrite lookup_insert_eq, Hr. reflexivity.
    + intros other Hne. apply lookup_insert_ne. congruence.
Qed.

(** ** The provider call never touches the datastore *)

Lemma run_callOpenAI_db (e : env) (message : string) (d : database) :
  (run e (callOpenAI message) d).1.2 = d /\
  forallb (fun a => negb (is_write a)) (run e (callOpenAI message) d).2 = true /\
  forall d', (run e (callOpenAI message) d').1.1 = (run e (callOpenAI message) d).1.1.
Proof.
  unfold callOpenAI. simpl.
  destruct (String.eqb (os_Getenv e "OPENAI_API_KEY") ""); simpl; [auto |].
  destruct (client_Do e _ _) as [err | resp]; simpl; [auto |].
  destruct (Body resp) as [err | body]; simpl; [auto |].
  destruct (negb (StatusCode resp =? 200)); simpl; [auto |].
  destruct (json_Unmarshal body) as [err | apiResp]; simpl; [auto |].
  destruct (Choices apiResp); simpl; auto.
Qed.

Lemma run_callLLMAPI_db (e : env) (message model : string) (d : database) :
  (run e (callLLMAPI message model) d).1.2 = d /\
  forallb (fun a => negb (is_write a)) (run e (callLLMAPI message model) d).2 = true /\
  forall d', (run e (callLLMAPI message model) d').1.1 =
             (run e (callLLMAPI message model) d).1.1.
Proof.
  unfold callLLMAPI.
  destruct (String.eqb model "gpt-4o"); [apply run_callOpenAI_db |].
  destruct (String.eqb model "claude-3"); [simpl; auto |].
  destruct (String.eqb model "gemini"); [simpl; auto |].
  apply run_callOpenAI_db.
Qed.

Lemma run_apiChatHandler (e : env) (r : http_request) (userID : Z)
    (req : APIRequest) (d : database) :
  session_user_id r = Some userID ->
  json_Decode (request_body r) = inr req ->
  run e (apiChatHandler r) d =
  if (run e (checkUsageLimit userID) d).1.1 then
    let '(response, tokens, err, _, t1) :=
      run e (callLLMAPI (req_Message req) (req_Model req)) d in
    match err with
    | Some err =>
        ({| Status := StatusInternalServerError;
            Payload := JSONError ("AI APIでエラーが発生しました: " +:+ err) |}, d,
         SelectUsage userID :: t1 ++ [LogPrintf ("LLM API error: " +:+ err)])
    | None =>
        let '(reply, d2, t2) := run e (after_reply userID req response tokens) d in
        (reply, d2, SelectUsage userID :: t1 ++ t2)
    end
  else
    ({| Status := StatusTooManyRequests; Payload := JSONError quota_message |}, d,
     [SelectUsage userID]).
Proof.
  intros Hs Hd. unfold apiChatHandler. rewrite Hs, Hd.
  rewrite run_mbind, run_checkUsageLimit. cbn [fst snd].
  destruct (match (perform e (SelectUsage userID) d).1 with
            | inl _ => true | inr c => c <? 50 end); cbn [negb]; [| reflexivity].
  pose proof (run_callLLMAPI_db e (req_Message req) (req_Model req) d) as (Hdb & _ & _).
  destruct (run e (callLLMAPI (req_Message req) (req_Model req)) d)
    as [[[[response tokens] err] d1] t1] eqn:Hrun. simpl in Hdb. subst d1.
  rewrite run_mbind, Hrun.
  destruct err as [err |].
  - simpl. reflexivity.
  - fold (after_reply userID req response tokens).
    destruct (run e (after_reply userID req response tokens) d) as [[reply d2] t2].
    reflexivity.
Qed.

Lemma run_log_if_error (e : env) (what : string) (x : option error) (d : database) :
  run e (log_if_error what x) d = (tt, d, logged what x).
Proof. destruct x; reflexivity. Qed.

Lemma run_after_reply (e : env) (userID : Z) (req : APIRequest) (response : string)
    (tokens : Z) (d : database) :
  run e (after_reply userID req response tokens) d =
  let '(e1, d1, t1) := run e (recordUsage userID (req_Model req) tokens) d in
  let '(e2, d2, t2) :=
    run e (saveChatHistory userID (req_Message req) response (req_Model req) tokens) d1 in
  ({| Status := StatusOK;
      Payload := JSONReply {| resp_Response := response;
                              resp_Model := req_Model req;
                              resp_Tokens := tokens |} |},
   d2,
   t1 ++ logged "Failed to record usage: " e1 ++
   t2 ++ logged "Failed to save chat history: " e2).
Proof.
  unfold after_reply. rewrite run_mbind.
  destruct (run e (recordUsage userID (req_Model req) tokens) d) as [[e1 d1] t1].
  rewrite run_mbind, run_log_if_error, run_mbind.
  destruct (run e (saveChatHistory userID (req_Message req) response (req_Model req) tokens) d1)
    as [[e2 d2] t2].
  rewrite run_mbind, run_log_if_error. simpl. rewrite app_nil_r. reflexivity.
Qed.

(** ** Quota exceeded *)

(** C2, as the code has it: when the read of today's row succeeds and
    shows a count of at least 50, the turn is answered with 429 and the
    quota message, the datastore is left exactly as it was, and the read is
    the only action performed (no provider call, no write, no log). *)
Theorem quota_exceeded_when_read_succeeds (e : env) (r : http_request)
    (userID : Z) (req : APIRequest) (d : database) (row : usage_row) :
  session_user_id r = Some userID ->
  json_Decode (request_body r) = inr req ->
  db_fault e (SelectUsage userID) = None ->
  user_usage d !! (userID, db_today d) = Some row ->
  daily_limit <= chat_count row ->
  run e (apiChatHandler r) d =
  ({| Status := StatusTooManyRequests; Payload := JSONError quota_message |}, d,
   [SelectUsage userID]).
Proof.
  intros Hs Hd Hf Hrow Hc. rewrite (run_apiChatHandler e r userID req d Hs Hd).
  rewrite run_checkUsageLimit. simpl. rewrite Hf, Hrow. simpl.
  unfold daily_limit in Hc. apply Z.ltb_ge in Hc. rewrite Hc. reflexivity.
Qed.

(** ** Provider failure *)

Lemma primary_call_fails_run (e : env) (message : string) (err : error) (d : database) :
  primary_call_fails e message err ->
  (run e (callOpenAI message) d).1.1 = ("", 0, Some err).
Proof.
  intros H. unfold callOpenAI. simpl.
  destruct H as [Hk | err Hk Hdo | reply err Hk Hdo Hb | reply body Hk Hdo Hb Hst
                 | reply body err Hk Hdo Hb Hst Hj | reply body apiResp Hk Hdo Hb Hst Hj Hc].
  - rewrite Hk. reflexivity.
  - apply String.eqb_neq in Hk. rewrite Hk. simpl. rewrite Hdo. reflexivity.
  - apply String.eqb_neq in Hk. rewrite Hk. simpl. rewrite Hdo. simpl.
    rewrite Hb. reflexivity.
  - apply String.eqb_neq in Hk. rewrite Hk. simpl. rewrite Hdo. simpl. rewrite Hb.
    apply Z.eqb_neq in Hst. rewrite Hst. reflexivity.
  - apply String.eqb_neq in Hk. rewrite Hk. simpl. rewrite Hdo. simpl.
    rewrite Hb, Hst. simpl. rewrite Hj. reflexivity.
  - apply String.eqb_neq in Hk. rewrite Hk. simpl. rewrite Hdo. simpl.
    rewrite Hb, Hst. simpl. rewrite Hj, Hc. reflexivity.
Qed.

(** C3: in a turn that reaches the provider, every failure of the call to
    the primary model (missing key, network error, status other than 200,
    malformed JSON, no choices) makes the dispatch return an error; and
    whenever the dispatch returns an error the turn is answered with 500
    and a message carrying that error, the datastore is left exactly as it
    was (no usage increment, no session, no message) and no write is even
    attempted. *)
Theorem provider_failure_is_surfaced (e : env) (r : http_request) (userID : Z)
    (req : APIRequest) (d : database) (err : error) :
  session_user_id r = Some userID ->
  json_Decode (request_body r) = inr req ->
  (run e (checkUsageLimit userID) d).1.1 = true ->
  let provider := (run e (callLLMAPI (req_Message req) (req_Model req)) d).1.1 in
  let out := run e (apiChatHandler r) d in
  (req_Model req <> "claude-3" -> req_Model req <> "gemini" ->
   primary_call_fails e (req_Message req) err -> provider = ("", 0, Some err)) /\
  (provider.2 = Some err ->
   out.1.1 = {| Status := StatusInternalServerError;
                Payload := JSONError ("AI APIでエラーが発生しました: " +:+ err) |} /\
   out.1.2 = d /\
   forallb (fun a => negb (is_write a)) out.2 = true /\
   In (LogPrintf ("LLM API error: " +:+ err)) out.2).
Proof.
  intros Hs Hd Hok provider out. split.
  - intros H1 H2 Hfail. subst provider. unfold callLLMAPI.
    apply String.eqb_neq in H1, H2. rewrite H1, H2.
    destruct (String.eqb (req_Model req) "gpt-4o");
      apply primary_call_fails_run; assumption.
  - subst provider out. intros Herr.
    rewrite (run_apiChatHandler e r userID req d Hs Hd), Hok.
    pose proof (run_callLLMAPI_db e (req_Message req) (req_Model req) d) as (_ & Hw & _).
    destruct (run e (callLLMAPI (req_Message req) (req_Model req)) d)
      as [[[[response tokens] err'] d1] t1]. simpl in Herr, Hw. subst err'.
    simpl. repeat split.
    + rewrite forallb_app, Hw. reflexivity.
    + right. apply in_or_app. right. left. reflexivity.
Qed.

(** ** Persistence failures *)

(** C4: once the provider has answered, the turn is answered with 200 and
    [{response, model, tokens}] whatever the datastore does with the usage
    upsert and with the three history inserts; an error of either step
    only leaves a log entry. *)
Theorem persistence_failures_are_swallowed (e : env) (r : http_request)
    (userID : Z) (req : APIRequest) (d : database) (response : string) (tokens : Z) :
  session_user_id r = Some userID ->
  json_Decode (request_body r) = inr req ->
  (run e (checkUsageLimit userID) d).1.1 = true ->
  (run e (callLLMAPI (req_Message req) (req_Model req)) d).1.1 = (response, tokens, None) ->
  let out := run e (apiChatHandler r) d in
  let usage := run e (recordUsage userID (req_Model req) tokens) d in
  let history :=
    run e (saveChatHistory userID (req_Message req) response (req_Model req) tokens)
      usage.1.2 in
  out.1.1 = {| Status := StatusOK;
               Payload := JSONReply {| resp_Response := response;
                                       resp_Model := req_Model req;
                                       resp_Tokens := tokens |} |} /\
  out.1.2 = history.1.2 /\
  (forall err, usage.1.1 = Some err ->
     In (LogPrintf ("Failed to record usage: " +:+ err)) out.2) /\
  (forall err, history.1.1 = Some err ->
     In (LogPrintf ("Failed to save chat history: " +:+ err)) out.2).
Proof.
  intros Hs Hd Hok Hp out usage history. subst out usage history.
  rewrite (run_apiChatHandler e r userID req d Hs Hd), Hok.
  destruct (run e (callLLMAPI (req_Message req) (req_Model req)) d)
    as [[[[response' tokens'] err'] d1] t1]. simpl in Hp. inversion Hp; subst.
  rewrite run_after_reply.
  destruct (run e (recordUsage userID (req_Model req) tokens) d) as [[e1 d1'] t1'].
  cbn [fst snd].
  destruct (run e (saveChatHistory userID (req_Message req) response (req_Model req) tokens) d1')
    as [[e2 d2] t2].
  cbn [fst snd]. repeat split.
  - intros err ->. right. apply in_or_app. right. apply in_or_app. right.
    apply in_or_app. left. left. reflexivity.
  - intros err ->. right. apply in_or_app. right. apply in_or_app. right.
    apply in_or_app. right. apply in_or_app. right. left. reflexivity.
Qed.

(** ** History persistence *)

Lemma run_recordUsage_frame (e : env) (userID : Z) (model : string) (tokens : Z)
    (d : database) :
  let d1 := (run e (recordUsage userID model tokens) d).1.2 in
  chat_sessions d1 = chat_sessions d /\ chat_messages d1 = chat_messages d /\
  next_session_id d1 = next_session_id d /\ next_message_id d1 = next_message_id d.
Proof.
  unfold recordUsage. simpl.
  destruct (db_fault e (UpsertUsage userID tokens)); simpl; auto.
Qed.

(** The session row is stored as soon as the first insert is accepted,
    whatever becomes of the two message inserts. *)
Lemma run_saveChatHistory_session (e : env) (userID : Z)
    (userMessage aiResponse model : string) (tokens : Z) (d : database) :
  db_fault e (InsertSession userID (session_title userMessage) model) = None ->
  chat_sessions (run e (saveChatHistory userID userMessage aiResponse model tokens) d).1.2 =
  chat_sessions d ++
  [{| s_id := next_session_id d; s_user_id := userID;
      s_title := session_title userMessage; s_model := model |}].
Proof.
  intros Hf. unfold saveChatHistory. simpl. rewrite Hf. simpl.
  destruct (db_fault e (InsertMessage _ "user" _ _ _)); simpl; [reflexivity |].
  destruct (db_fault e (InsertMessage _ "assistant" _ _ _)); reflexivity.
Qed.

Lemma run_saveChatHistory_ok (e : env) (userID : Z)
    (userMessage aiResponse model : string) (tokens : Z) (d : database) :
  (forall a, is_history a = true -> db_fault e a = None) ->
  let out := run e (saveChatHistory userID userMessage aiResponse model tokens) d in
  out.1.1 = None /\
  chat_messages out.1.2 =
  chat_messages d ++
  [{| m_id := next_message_id d; m_session_id := next_session_id d;
      m_role := "user"; m_content := userMessage; m_model := model;
      m_tokens_used := None |};
   {| m_id := next_message_id d + 1; m_session_id := next_session_id d;
      m_role := "assistant"; m_content := aiResponse; m_model := model;
      m_tokens_used := Some tokens |}].
Proof.
  intros Hf. unfold saveChatHistory. simpl.
  rewrite !Hf by reflexivity. simpl. rewrite !Hf by reflexivity. simpl.
  rewrite !Hf by reflexivity. simpl. rewrite <- app_assoc. split; reflexivity.
Qed.

(** C7, as the code has it: a turn whose provider call succeeds and whose
    three history inserts are all accepted by the datastore adds exactly
    one session and exactly two messages of that session, the user
    message first and the assistant reply second, the token count being
    set on the assistant message and absent on the user message. *)
Theorem successful_turn_history (e : env) (r : http_request) (userID : Z)
    (req : APIRequest) (d : database) (response : string) (tokens : Z) :
  session_user_id r = Some userID ->
  json_Decode (request_body r) = inr req ->
  (run e (checkUsageLimit userID) d).1.1 = true ->
  (run e (callLLMAPI (req_Message req) (req_Model req)) d).1.1 = (response, tokens, None) ->
  (forall a, is_history a = true -> db_fault e a = None) ->
  let out := run e (apiChatHandler r) d in
  Status out.1.1 = StatusOK /\
  chat_sessions out.1.2 =
    chat_sessions d ++
    [{| s_id := next_session_id d; s_user_id := userID;
        s_title := session_title (req_Message req); s_model := req_Model req |}] /\
  chat_messages out.1.2 =
    chat_messages d ++
    [{| m_id := next_message_id d; m_session_id := next_session_id d;
        m_role := "user"; m_content := req_Message req; m_model := req_Model req;
        m_tokens_used := None |};
     {| m_id := next_message_id d + 1; m_session_id := next_session_id d;
        m_role := "assistant"; m_content := response; m_model := req_Model req;
        m_tokens_used := Some tokens |}].
Proof.
  intros Hs Hd Hok Hp Hf out. subst out.
  rewrite (run_apiChatHandler e r userID req d Hs Hd), Hok.
  destruct (run e (callLLMAPI (req_Message req) (req_Model req)) d)
    as [[[[response' tokens'] err'] d0] t1]. simpl in Hp. inversion Hp; subst.
  rewrite run_after_reply.
  pose proof (run_recordUsage_frame e userID (req_Model req) tokens d) as (Hss & Hms & Hsi & Hmi).
  destruct (run e (recordUsage userID (req_Model req) tokens) d) as [[e1 d1] t1'].
  cbn [fst snd] in Hss, Hms, Hsi, Hmi.
  pose proof (run_saveChatHistory_session e userID (req_Message req) response
                (req_Model req) tokens d1 (Hf (InsertSession _ _ _) eq_refl)) as Hsess.
  pose proof (run_saveChatHistory_ok e userID (req_Message req) response
                (req_Model req) tokens d1 Hf) as [_ Hmsgs].
  destruct (run e (saveChatHistory userID (req_Message req) response (req_Model req) tokens) d1)
    as [[e2 d2] t2].
  cbn [fst snd] in *. rewrite Hsess, Hmsgs, Hss, Hms, Hsi, Hmi. auto.
Qed.

(** X22: on messages made of one-byte characters the title is cut as
    intended.  In a turn whose provider call succeeds and whose session
    insert is accepted, the stored title is the whole message when the
    message has at most 50 characters, and its first 47 characters
    followed by the three characters "..." (50 characters in all) when it
    has more; the 52-character announcement message gets its first 47
    characters plus "...". *)
Theorem stored_session_title (e : env) (r : http_request) (userID : Z)
    (req : APIRequest) (d : database) (response : string) (tokens : Z) :
  session_user_id r = Some userID ->
  json_Decode (request_body r) = inr req ->
  (run e (checkUsageLimit userID) d).1.1 = true ->
  (run e (callLLMAPI (req_Message req) (req_Model req)) d).1.1 = (response, tokens, None) ->
  db_fault e (InsertSession userID (session_title (req_Message req)) (req_Model req)) = None ->
  all_single_byte (req_Message req) = true ->
  (exists row,
     chat_sessions (run e (apiChatHandler r) d).1.2 = chat_sessions d ++ [row] /\
     ((utf8_length (req_Message req) <= 50)%nat -> s_title row = req_Message req) /\
     ((50 < utf8_length (req_Message req))%nat ->
      s_title row = substring 0 47 (req_Message req) +:+ "..." /\
      utf8_length (substring 0 47 (req_Message req)) = 47%nat /\
      utf8_length (s_title row) = 50%nat)) /\
  utf8_length scenario_message = 52%nat /\
  session_title scenario_message = "Draft a product announcement email for our Q3 l...".
Proof.
  intros Hs Hd Hok Hp Hf Hascii. split; [| split; reflexivity].
  rewrite (run_apiChatHandler e r userID req d Hs Hd), Hok.
  destruct (run e (callLLMAPI (req_Message req) (req_Model req)) d)
    as [[[[response' tokens'] err'] d0] t1]. simpl in Hp. inversion Hp; subst.
  rewrite run_after_reply.
  pose proof (run_recordUsage_frame e userID (req_Model req) tokens d) as (Hss & _ & Hsi & _).
  destruct (run e (recordUsage userID (req_Model req) tokens) d) as [[e1 d1] t1'].
  cbn [fst snd] in Hss, Hsi.
  pose proof (run_saveChatHistory_session e userID (req_Message req) response
                (req_Model req) tokens d1 Hf) as Hsess.
  destruct (run e (saveChatHistory userID (req_Message req) response (req_Model req) tokens) d1)
    as [[e2 d2] t2].
  cbn [fst snd] in *. eexists. split; [rewrite Hsess, Hss; reflexivity |].
  cbn [s_title]. rewrite (utf8_length_single_byte _ Hascii). split.
  - apply session_title_short.
  - intros Hlong. destruct (session_title_long _ Hlong) as [Heq Hlen].
    split; [exact Heq |].
    assert (Hpre : all_single_byte (substring 0 47 (req_Message req)) = true)
      by (apply all_single_byte_prefix; exact Hascii).
    split.
    + rewrite (utf8_length_single_byte _ Hpre). apply length_prefix. lia.
    + rewrite utf8_length_single_byte; [exact Hlen |].
      rewrite Heq, all_single_byte_append, Hpre. reflexivity.
Qed.

(** ** Serving one request at a time keeps the limit *)



Lemma perform_frame (e : env) (a : action) (d : database) :
  is_upsert a = false ->
  user_usage (perform e a d).2 = user_usage d /\
  db_today (perform e a d).2 = db_today d.
Proof.
  destruct a; simpl; intros H; try discriminate; auto;
    destruct (db_fault e _); simpl; auto.
  destruct (user_usage d !! _); auto.
Qed.





Lemma never_upsert_saveChatHistory (userID : Z) (userMessage aiResponse model : string)
    (tokens : Z) :
  never is_upsert (saveChatHistory userID userMessage aiResponse model tokens).
Proof.
  unfold saveChatHistory. simpl. split; [reflexivity |].
  intros [err | sessionID]; simpl; [exact I |]. split; [reflexivity |].
  intros [err |]; simpl; auto.
Qed.

Section Stable.

(** A property of the usage table that survives the passing of time. *)
Variable P : database -> Prop.
Hypothesis P_later :
  forall d d', user_usage d' = user_usage d -> db_today d <= db_today d' -> P d -> P d'.


End Stable.









(** ** Serving one at a time is one of the interleavings *)

Lemma exec_app (s1 s2 : list sched_step) (s : system) :
  exec (s1 ++ s2) s =
  match exec s1 s with
  | Some s' => exec s2 s'
  | None => None
  end.
Proof.
  revert s. induction s1 as [| l s1 IH]; intros s; simpl; [reflexivity |].
  destruct (sys_step l s); [apply IH | reflexivity].
Qed.

Lemma exec_midnights (n : nat) (d : database) (pool : list thread) :
  exec (replicate n Midnight) {| sys_db := d; sys_pool := pool |} =
  Some {| sys_db := Nat.iter n next_day d; sys_pool := pool |}.
Proof.
  revert d. induction n as [| n IH]; intros d; simpl; [reflexivity |].
  rewrite IH. f_equal. f_equal. clear IH.
  induction n as [| n IHn]; simpl; [reflexivity | rewrite IHn; reflexivity].
Qed.

Lemma solo_schedule_exec {ticks : list nat} (i : nat) (e : env)
    (p : prog http_response) (d : database) (pool : list thread) :
  pool !! i = Some {| t_env := e; t_prog := p |} ->
  exec (solo_schedule i e p ticks d) {| sys_db := d; sys_pool := pool |} =
  Some {| sys_db := (run_ticking e p ticks d).1.2;
          sys_pool := <[i := {| t_env := e; t_prog := Ret (run_ticking e p ticks d).1.1 |}]> pool |}.
Proof.
  revert ticks d pool. induction p as [r | a k IH]; intros ticks d pool Hi; simpl.
  - rewrite list_insert_id by exact Hi. reflexivity.
  - destruct (perform e a (Nat.iter (hd 0%nat ticks) next_day d)) as [x d1] eqn:Hp.
    rewrite exec_app, exec_midnights. simpl. rewrite Hi.
    unfold thread_step. simpl. rewrite Hp.
    rewrite (IH x (tl ticks) d1).
    + rewrite list_insert_insert_eq. reflexivity.
    + apply list_lookup_insert_eq. eapply lookup_lt_Some. exact Hi.
Qed.

(** Serving the turns one after the other is what the system does under
    [serial_schedule]: it ends in the store [serve_serially] computes,
    with every request answered. *)
Lemma serial_schedule_exec (turns : list turn) (done : list thread) (d : database) :
  exists answered,
    exec (serial_schedule (length done) turns d)
      {| sys_db := d; sys_pool := done ++ map thread_of turns |} =
    Some {| sys_db := serve_serially turns d; sys_pool := done ++ answered |} /\
    Forall finished answered.
Proof.
  revert done d. induction turns as [| t rest IH]; intros done d.
  - exists []. split; [reflexivity | constructor].
  - cbn [serial_schedule map]. rewrite exec_app.
    rewrite (solo_schedule_exec (length done) (turn_env t) (apiChatHandler (turn_request t)) d)
      by (apply list_lookup_middle; reflexivity).
    rewrite insert_app_r_alt by lia. rewrite Nat.sub_diag. cbn [insert list_insert].
    set (ft := {| t_env := turn_env t; t_prog := Ret _ |}).
    destruct (IH (done ++ [ft]) (serve t d)) as (answered & Hexec & Hfin).
    rewrite length_app in Hexec. cbn [length] in Hexec.
    replace (length done + 1)%nat with (S (length done)) in Hexec by lia.
    rewrite <- app_assoc in Hexec. cbn [app] in Hexec.
    exists (ft :: answered). split.
    + unfold serve in *. rewrite Hexec. rewrite <- app_assoc. reflexivity.
    + constructor; [eexists; reflexivity | exact Hfin].
Qed.

(** * Further properties of the chat path *)

(** ** The five ways a request ends *)

(** Every run of the handler is one of: no session; a body that does not
    decode; quota refused; provider failure; provider success followed by
    the two persistence steps. *)
Lemma apiChatHandler_cases (e : env) (r : http_request) (d : database) :
  (session_user_id r = None /\
   run e (apiChatHandler r) d = (http_Error "Unauthorized" 401, d, [])) \/
  (exists userID err,
     session_user_id r = Some userID /\
     json_Decode (request_body r) = inl err /\
     run e (apiChatHandler r) d =
     (http_Error "Invalid JSON" 400, d, [LogPrintf ("Invalid JSON: " +:+ err)])) \/
  (exists userID req,
     session_user_id r = Some userID /\
     json_Decode (request_body r) = inr req /\
     (run e (checkUsageLimit userID) d).1.1 = false /\
     run e (apiChatHandler r) d =
     ({| Status := 429; Payload := JSONError quota_message |}, d, [SelectUsage userID])) \/
  (exists userID req response tokens err t1,
     session_user_id r = Some userID /\
     json_Decode (request_body r) = inr req /\
     (run e (checkUsageLimit userID) d).1.1 = true /\
     run e (callLLMAPI (req_Message req) (req_Model req)) d =
       (response, tokens, Some err, d, t1) /\
     forallb (fun a => negb (is_write a)) t1 = true /\
     run e (apiChatHandler r) d =
     ({| Status := 500;
         Payload := JSONError ("AI APIでエラーが発生しました: " +:+ err) |}, d,
      SelectUsage userID :: t1 ++ [LogPrintf ("LLM API error: " +:+ err)])) \/
  (exists userID req response tokens t1,
     session_user_id r = Some userID /\
     json_Decode (request_body r) = inr req /\
     (run e (checkUsageLimit userID) d).1.1 = true /\
     run e (callLLMAPI (req_Message req) (req_Model req)) d =
       (response, tokens, None, d, t1) /\
     run e (apiChatHandler r) d =
     ((run e (after_reply userID req response tokens) d).1.1,
      (run e (after_reply userID req response tokens) d).1.2,
      SelectUsage userID :: t1 ++ (run e (after_reply userID req response tokens) d).2)).
Proof.
  destruct (session_user_id r) as [userID |] eqn:Hs.
  2: { left. split; [reflexivity |]. unfold apiChatHandler. rewrite Hs. reflexivity. }
  right. destruct (json_Decode (request_body r)) as [err | req] eqn:Hd.
  { left. exists userID, err. repeat split. unfold apiChatHandler. rewrite Hs, Hd. reflexivity. }
  right. rewrite (run_apiChatHandler e r userID req d Hs Hd).
  destruct ((run e (checkUsageLimit userID) d).1.1) eqn:Hok.
  2: { left. exists userID, req. auto. }
  right.
  pose proof (run_callLLMAPI_db e (req_Message req) (req_Model req) d) as (Hdb & Hw & _).
  destruct (run e (callLLMAPI (req_Message req) (req_Model req)) d)
    as [[[[response tokens] err] d1] t1] eqn:Hrun. cbn [fst snd] in Hdb, Hw. subst d1.
  destruct err as [err |].
  - left. exists userID, req, response, tokens, err, t1. repeat split; auto.
  - right. exists userID, req, response, tokens, t1.
    destruct (run e (after_reply userID req response tokens) d) as [[reply d2] t2].
    repeat split; auto.
Qed.

Lemma after_reply_status (e : env) (userID : Z) (req : APIRequest) (response : string)
    (tokens : Z) (d : database) :
  Status (run e (after_reply userID req response tokens) d).1.1 = 200.
Proof.
  rewrite run_after_reply.
  destruct (run e (recordUsage userID (req_Model req) tokens) d) as [[e1 d1] t1].
  destruct (run e (saveChatHistory _ _ _ _ _) d1) as [[e2 d2] t2]. reflexivity.
Qed.

(** X1: the handler answers 200, 400, 401, 429 or 500 and nothing else;
    whenever the answer is not 200 the datastore is exactly as it was and
    no write was attempted. *)
Theorem only_success_writes (e : env) (r : http_request) (d : database) :
  let out := run e (apiChatHandler r) d in
  In (Status out.1.1) [200; 400; 401; 429; 500] /\
  (Status out.1.1 <> 200 ->
   out.1.2 = d /\ forallb (fun a => negb (is_write a)) out.2 = true).
Proof.
  intros out. subst out.
  destruct (apiChatHandler_cases e r d)
    as [[_ H] | [(u & err & _ & _ & H) | [(u & req & _ & _ & _ & H)
       | [(u & req & resp & tok & err & t1 & _ & _ & _ & _ & Hw & H)
       | (u & req & resp & tok & t1 & _ & _ & _ & _ & H)]]]]; rewrite H; cbn [fst snd].
  - simpl. intuition.
  - simpl. intuition.
  - simpl. intuition.
  - split; [simpl; intuition |]. intros _. split; [reflexivity |].
    cbn [forallb is_write negb andb]. rewrite forallb_app, Hw. reflexivity.
  - rewrite after_reply_status. split; [simpl; intuition |].
    intros Hne. exfalso. apply Hne. reflexivity.
Qed.

(** X2: the answer is 401 exactly when the session carries no [user_id],
    whatever the body, the collaborators and the store; it is 400 exactly
    when there is a [user_id] and the body does not decode; and a request
    answered 400 or 401 has reached neither the datastore nor the
    provider: its trace holds log entries only. *)
Theorem rejected_before_any_io (e : env) (r : http_request) (d : database) :
  let out := run e (apiChatHandler r) d in
  (Status out.1.1 = 401 <-> session_user_id r = None) /\
  (Status out.1.1 = 400 <->
   exists userID err,
     session_user_id r = Some userID /\ json_Decode (request_body r) = inl err) /\
  (Status out.1.1 = 401 \/ Status out.1.1 = 400 ->
   out.1.2 = d /\ only_logs out.2 = true).
Proof.
  intros out. subst out.
  destruct (apiChatHandler_cases e r d)
    as [[Hs H] | [(u & err & Hs & Hd & H) | [(u & req & Hs & Hd & _ & H)
       | [(u & req & resp & tok & err & t1 & Hs & Hd & _ & _ & _ & H)
       | (u & req & resp & tok & t1 & Hs & Hd & _ & _ & H)]]]]; rewrite H; cbn [fst snd];
    try rewrite after_reply_status; cbn [Status http_Error];
    (repeat split; intros;
     repeat match goal with
            | H : exists _, _ |- _ => destruct H
            | H : _ /\ _ |- _ => destruct H
            | H : _ \/ _ |- _ => destruct H
            end;
     try discriminate; try congruence; eauto).
Qed.

(** ** The call to the primary model *)

(** X3: [callOpenAI] returns an error exactly in the six failure cases,
    always together with an empty reply and zero tokens; otherwise the
    upstream answered 200 with a body that decodes to at least one choice,
    and the result is the content of the first choice (the others are
    ignored) with the total token usage reported upstream. *)
Theorem callOpenAI_outcomes (e : env) (message : string) (d : database) :
  let out := (run e (callOpenAI message) d).1.1 in
  let key := os_Getenv e "OPENAI_API_KEY" in
  (forall err, out.2 = Some err <-> primary_call_fails e message err) /\
  (forall err, out.2 = Some err -> out = ("", 0, Some err)) /\
  (out.2 = None ->
   exists reply body apiResp rest,
     key <> "" /\
     client_Do e key (chat_completion_request message) = inr reply /\
     StatusCode reply = 200 /\ Body reply = inr body /\
     json_Unmarshal body = inr apiResp /\
     Choices apiResp = out.1.1 :: rest /\
     out.1.2 = Usage_TotalTokens apiResp).
Proof.
  intros out key.
  assert (Hcases :
    (exists err, primary_call_fails e message err /\ out = ("", 0, Some err)) \/
    (exists reply body apiResp c rest,
       key <> "" /\ client_Do e key (chat_completion_request message) = inr reply /\
       StatusCode reply = 200 /\ Body reply = inr body /\
       json_Unmarshal body = inr apiResp /\ Choices apiResp = c :: rest /\
       out = (c, Usage_TotalTokens apiResp, None))).
  { subst out key. unfold callOpenAI. simpl.
    destruct (String.eqb_spec (os_Getenv e "OPENAI_API_KEY") "") as [Hk | Hk]; simpl.
    { left. eexists. split; [apply missing_api_key; exact Hk | reflexivity]. }
    destruct (client_Do e _ _) as [err | reply] eqn:Hdo; simpl.
    { left. eexists. split; [eapply network_error; eauto | reflexivity]. }
    destruct (Body reply) as [err | body] eqn:Hb; simpl.
    { left. eexists. split; [eapply body_read_error; eauto | reflexivity]. }
    destruct (Z.eqb_spec (StatusCode reply) 200) as [Hst | Hst]; simpl.
    2: { left. eexists. split; [eapply upstream_status; eauto | reflexivity]. }
    destruct (json_Unmarshal body) as [err | apiResp] eqn:Hj; simpl.
    { left. eexists. split; [eapply malformed_json; eauto | reflexivity]. }
    destruct (Choices apiResp) as [| c rest] eqn:Hc; simpl.
    { left. eexists. split; [eapply empty_choices; eauto | reflexivity]. }
    right. exists reply, body, apiResp, c, rest. repeat split; auto. }
  split; [| split].
  - intros err. split.
    + intros Herr. destruct Hcases as [(err' & Hf & Hout) | (? & ? & ? & ? & ? & H)].
      * rewrite Hout in Herr. simpl in Herr. congruence.
      * destruct H as (_ & _ & _ & _ & _ & _ & Hout). rewrite Hout in Herr. discriminate.
    + intros Hf. subst out. rewrite (primary_call_fails_run e message err d Hf). reflexivity.
  - intros err Herr. destruct Hcases as [(err' & Hf & Hout) | (? & ? & ? & ? & ? & H)].
    + rewrite Hout in Herr |- *. simpl in Herr. congruence.
    + destruct H as (_ & _ & _ & _ & _ & _ & Hout). rewrite Hout in Herr. discriminate.
  - intros Hnone. destruct Hcases as [(err' & Hf & Hout) | (reply & body & apiResp & c & rest & H)].
    + rewrite Hout in Hnone. discriminate.
    + destruct H as (H1 & H2 & H3 & H4 & H5 & H6 & Hout). rewrite Hout.
      exists reply, body, apiResp, rest. repeat split; auto.
Qed.

(** X4: what the dispatch sends upstream.  The two stubbed models perform
    no action.  For every other model name, known or not, the API key is
    read; with an empty key nothing is sent, and otherwise exactly one
    request is sent, with the key as bearer token and always for the model
    "gpt-4o", carrying the message as its single user message. *)
Theorem callLLMAPI_upstream_traffic (e : env) (message model : string) (d : database) :
  let trace := (run e (callLLMAPI message model) d).2 in
  let key := os_Getenv e "OPENAI_API_KEY" in
  (model = "claude-3" \/ model = "gemini" -> trace = []) /\
  (model <> "claude-3" -> model <> "gemini" ->
   (key = "" -> trace = [Getenv "OPENAI_API_KEY"]) /\
   (key <> "" ->
    trace = [Getenv "OPENAI_API_KEY"; ClientDo key (chat_completion_request message)] /\
    oai_Model (chat_completion_request message) = "gpt-4o" /\
    oai_Messages (chat_completion_request message) =
      [[("role", "user"); ("content", message)]])).
Proof.
  intros trace key. split.
  - intros [-> | ->]; reflexivity.
  - intros H1 H2.
    assert (Hopen : trace = (run e (callOpenAI message) d).2).
    { subst trace. unfold callLLMAPI. apply String.eqb_neq in H1, H2. rewrite H1, H2.
      destruct (String.eqb model "gpt-4o"); reflexivity. }
    rewrite Hopen. clear Hopen. subst key. unfold callOpenAI. simpl. split.
    + intros Hk. rewrite Hk. reflexivity.
    + intros Hk. apply String.eqb_neq in Hk. rewrite Hk. simpl. split; [| split; reflexivity].
      destruct (client_Do e _ _) as [err | reply]; simpl; [reflexivity |].
      destruct (Body reply); simpl; [reflexivity |].
      destruct (negb (StatusCode reply =? 200)); simpl; [reflexivity |].
      destruct (json_Unmarshal _) as [err | apiResp]; simpl; [reflexivity |].
      destruct (Choices apiResp); reflexivity.
Qed.

(** ** What a turn does to the usage table *)

Lemma perform_today (e : env) (a : action) (d : database) :
  db_today (perform e a d).2 = db_today d.
Proof.
  destruct a; simpl; auto; destruct (db_fault e _); simpl; auto.
  destruct (user_usage d !! _); auto.
Qed.

Lemma run_frame {R : Type} (e : env) (p : prog R) (d : database) :
  never is_upsert p ->
  user_usage (run e p d).1.2 = user_usage d /\ db_today (run e p d).1.2 = db_today d.
Proof.
  revert d. induction p as [r | a k IH]; intros d Hn; simpl; [auto |].
  destruct Hn as [Ha Hk].
  pose proof (perform_frame e a d Ha) as [Hu Ht].
  destruct (perform e a d) as [x d1]. cbn [snd] in Hu, Ht.
  specialize (IH x d1 (Hk x)).
  destruct (run e (k x) d1) as [[r d2] t]. cbn [fst snd] in *.
  destruct IH as [IHu IHt]. split; congruence.
Qed.

Lemma run_recordUsage (e : env) (userID : Z) (model : string) (tokens : Z)
    (d : database) :
  run e (recordUsage userID model tokens) d =
  ((perform e (UpsertUsage userID tokens) d).1,
   (perform e (UpsertUsage userID tokens) d).2, [UpsertUsage userID tokens]).
Proof.
  unfold recordUsage, call. cbn [run].
  destruct (perform e (UpsertUsage userID tokens) d) as [x d1]. reflexivity.
Qed.

(** After the provider has answered, the usage table is what the upsert
    alone leaves; the history inserts do not touch it. *)
Lemma after_reply_usage (e : env) (userID : Z) (req : APIRequest) (response : string)
    (tokens : Z) (d : database) :
  let d' := (run e (after_reply userID req response tokens) d).1.2 in
  user_usage d' = user_usage (perform e (UpsertUsage userID tokens) d).2 /\
  db_today d' = db_today d.
Proof.
  intros d'. subst d'. rewrite run_after_reply, run_recordUsage.
  pose proof (perform_today e (UpsertUsage userID tokens) d) as Ht.
  set (d1 := (perform e (UpsertUsage userID tokens) d).2) in *.
  pose proof (run_frame e (saveChatHistory userID (req_Message req) response
                             (req_Model req) tokens) d1
                (never_upsert_saveChatHistory _ _ _ _ _)) as [Hu Ht2].
  destruct (run e (saveChatHistory _ _ _ _ _) d1) as [[e2 d2] t2].
  cbn [fst snd] in *. split; congruence.
Qed.

Lemma upsert_lookup (e : env) (userID tokens : Z) (d : database) (key : Z * Z) :
  user_usage (perform e (UpsertUsage userID tokens) d).2 !! key =
  match db_fault e (UpsertUsage userID tokens) with
  | Some _ => user_usage d !! key
  | None =>
      if decide (key = (userID, db_today d))
      then Some (upsert_row (user_usage d !! key) tokens)
      else user_usage d !! key
  end.
Proof.
  simpl. destruct (db_fault e (UpsertUsage userID tokens)); simpl; [reflexivity |].
  destruct (decide (key = (userID, db_today d))) as [-> | Hne].
  - apply lookup_insert_eq.
  - apply lookup_insert_ne. congruence.
Qed.

(** X5: a turn never touches the usage of anybody else, nor of another
    day: whatever the request and the collaborators, every usage row other
    than the one of the session's user for the current date is left as it
    was, the date itself is unchanged, and the user's own chat count for
    today stays or grows by exactly one. *)
Theorem turn_touches_own_row_only (e : env) (r : http_request) (d : database) :
  let d' := (run e (apiChatHandler r) d).1.2 in
  db_today d' = db_today d /\
  (forall key,
     (forall userID, session_user_id r = Some userID -> key <> (userID, db_today d)) ->
     user_usage d' !! key = user_usage d !! key) /\
  (forall userID,
     session_user_id r = Some userID ->
     count_today userID d' = count_today userID d \/
     count_today userID d' = count_today userID d + 1).
Proof.
  intros d'. subst d'.
  destruct (apiChatHandler_cases e r d)
    as [[_ H] | [(u & err & _ & _ & H) | [(u & req & _ & _ & _ & H)
       | [(u & req & resp & tok & err & t1 & _ & _ & _ & _ & _ & H)
       | (u & req & resp & tok & t1 & Hs & _ & _ & _ & H)]]]]; rewrite H; cbn [fst snd];
    try (split; [reflexivity | split; [reflexivity | left; reflexivity]]).
  destruct (after_reply_usage e u req resp tok d) as [Hu Ht].
  split; [exact Ht |]. split.
  - intros key Hkey. rewrite Hu, upsert_lookup.
    destruct (db_fault e (UpsertUsage u tok)); [reflexivity |].
    destruct (decide (key = (u, db_today d))) as [-> | _]; [| reflexivity].
    exfalso. apply (Hkey u Hs). reflexivity.
  - intros userID Hs'. rewrite Hs in Hs'. inversion Hs'; subst userID.
    unfold count_today. rewrite Ht, Hu, upsert_lookup.
    destruct (db_fault e (UpsertUsage u tok)); [left; reflexivity |].
    destruct (decide ((u, db_today d) = (u, db_today d))) as [_ | Hne]; [| congruence].
    right. destruct (user_usage d !! (u, db_today d)); reflexivity.
Qed.

(** X9: what a served turn is charged.  When the provider has answered
    and the datastore accepts the upsert, the user's chat count for today
    grows by exactly one and the token count by exactly the number of
    tokens reported in the reply, whatever becomes of the history inserts;
    when the datastore refuses the upsert the reply is the same and the
    usage table is unchanged, so the turn is free. *)
Theorem served_turn_is_charged_once (e : env) (r : http_request) (userID : Z)
    (req : APIRequest) (d : database) (response : string) (tokens : Z) :
  session_user_id r = Some userID ->
  json_Decode (request_body r) = inr req ->
  (run e (checkUsageLimit userID) d).1.1 = true ->
  (run e (callLLMAPI (req_Message req) (req_Model req)) d).1.1 = (response, tokens, None) ->
  let out := run e (apiChatHandler r) d in
  Payload out.1.1 = JSONReply {| resp_Response := response; resp_Model := req_Model req;
                                 resp_Tokens := tokens |} /\
  (db_fault e (UpsertUsage userID tokens) = None ->
   count_today userID out.1.2 = count_today userID d + 1 /\
   tokens_today userID out.1.2 = tokens_today userID d + tokens) /\
  (db_fault e (UpsertUsage userID tokens) <> None ->
   user_usage out.1.2 = user_usage d).
Proof.
  intros Hs Hd Hok Hp out. subst out.
  rewrite (run_apiChatHandler e r userID req d Hs Hd), Hok.
  destruct (run e (callLLMAPI (req_Message req) (req_Model req)) d)
    as [[[[response' tokens'] err'] d0] t1]. simpl in Hp. inversion Hp; subst.
  destruct (after_reply_usage e userID req response tokens d) as [Hu Ht].
  pose proof (run_after_reply e userID req response tokens d) as Hrun.
  destruct (run e (after_reply userID req response tokens) d) as [[reply d2] t2].
  cbn [fst snd] in *. split; [| split].
  - destruct (run e (recordUsage _ _ _) d) as [[e1 d1] t1'].
    destruct (run e (saveChatHistory _ _ _ _ _) d1) as [[e2 d2'] t2'].
    inversion Hrun. reflexivity.
  - intros Hf. unfold count_today, tokens_today. rewrite Ht, Hu, upsert_lookup, Hf.
    destruct (decide ((userID, db_today d) = (userID, db_today d))) as [_ | Hne]; [| congruence].
    destruct (user_usage d !! (userID, db_today d)); simpl; split; lia.
  - intros Hf. rewrite Hu. simpl.
    destruct (db_fault e (UpsertUsage userID tokens)); [reflexivity | congruence].
Qed.

(** ** Counts only grow, under every interleaving *)

Lemma perform_counts_grow (e : env) (a : action) (d : database) (key : Z * Z)
    (row : usage_row) :
  user_usage d !! key = Some row ->
  exists row',
    user_usage (perform e a d).2 !! key = Some row' /\
    chat_count row <= chat_count row' <= chat_count row + 1.
Proof.
  intros Hrow. destruct (is_upsert a) eqn:Ha.
  - destruct a; try discriminate. rewrite upsert_lookup.
    destruct (db_fault e _); [exists row; split; [exact Hrow | lia] |].
    destruct (decide (key = (userID, db_today d))).
    + rewrite Hrow. eexists. split; [reflexivity |]. simpl. lia.
    + exists row. split; [exact Hrow | lia].
  - destruct (perform_frame e a d Ha) as [Hu _]. rewrite Hu.
    exists row. split; [exact Hrow | lia].
Qed.

(** X6: whatever programs the requests in flight run and however the
    scheduler interleaves them with each other and with midnights, no
    usage row ever disappears, no chat count ever decreases, and a count
    grows by at most one per step. *)
Theorem counts_never_decrease (sched : list sched_step) (s s' : system)
    (key : Z * Z) (row : usage_row) :
  exec sched s = Some s' ->
  user_usage (sys_db s) !! key = Some row ->
  exists row',
    user_usage (sys_db s') !! key = Some row' /\
    chat_count row <= chat_count row' <= chat_count row + Z.of_nat (length sched).
Proof.
  revert s row. induction sched as [| l sched IH]; intros s row Hexec Hrow.
  - simpl in Hexec. inversion Hexec; subst. exists row. split; [exact Hrow | simpl; lia].
  - simpl in Hexec. destruct (sys_step l s) as [s1 |] eqn:Hstep; [| discriminate].
    assert (Hone : exists row1, user_usage (sys_db s1) !! key = Some row1 /\
                     chat_count row <= chat_count row1 <= chat_count row + 1).
    { destruct l as [i |]; simpl in Hstep.
      - destruct (sys_pool s !! i) as [t |]; [| discriminate].
        unfold thread_step in Hstep. destruct (t_prog t) as [? | a k]; [discriminate |].
        pose proof (perform_counts_grow (t_env t) a (sys_db s) key row Hrow) as Hg.
        destruct (perform (t_env t) a (sys_db s)) as [x d1]. inversion Hstep; subst.
        exact Hg.
      - inversion Hstep; subst. exists row. split; [exact Hrow | lia]. }
    destruct Hone as (row1 & Hrow1 & Hb1).
    destruct (IH s1 row1 Hexec Hrow1) as (row' & Hrow' & Hb').
    exists row'. split; [exact Hrow' |]. cbn [length]. lia.
Qed.

(** ** What a turn does to the history *)

Lemma history_step_refl (d : database) : history_step d d.
Proof.
  exists [], []. rewrite !app_nil_r. simpl. repeat split; try lia. left. auto.
Qed.

Lemma saveChatHistory_step (e : env) (userID : Z) (userMessage aiResponse model : string)
    (tokens : Z) (d : database) :
  history_step d (run e (saveChatHistory userID userMessage aiResponse model tokens) d).1.2.
Proof.
  unfold saveChatHistory. simpl.
  destruct (db_fault e (InsertSession _ _ _)); simpl; [apply history_step_refl |].
  destruct (db_fault e (InsertMessage _ "user" _ _ _)); simpl.
  { eexists [_], []. simpl. rewrite app_nil_r. repeat split; try lia.
    right. repeat split; auto. }
  destruct (db_fault e (InsertMessage _ "assistant" _ _ _)); simpl.
  { eexists [_], [_]. simpl. repeat split; try lia.
    right. repeat split; auto. }
  eexists [_], [_; _]. simpl. rewrite <- app_assoc. repeat split; try lia.
  right. repeat split; auto.
Qed.

Lemma apiChatHandler_history_step (e : env) (r : http_request) (d : database) :
  history_step d (run e (apiChatHandler r) d).1.2.
Proof.
  destruct (apiChatHandler_cases e r d)
    as [[_ H] | [(u & err & _ & _ & H) | [(u & req & _ & _ & _ & H)
       | [(u & req & resp & tok & err & t1 & _ & _ & _ & _ & _ & H)
       | (u & req & resp & tok & t1 & _ & _ & _ & _ & H)]]]]; rewrite H; cbn [fst snd];
    try apply history_step_refl.
  rewrite run_after_reply.
  pose proof (run_recordUsage_frame e u (req_Model req) tok d) as (Hss & Hms & Hsi & Hmi).
  destruct (run e (recordUsage u (req_Model req) tok) d) as [[e1 d1] t1'].
  cbn [fst snd] in Hss, Hms, Hsi, Hmi.
  pose proof (saveChatHistory_step e u (req_Message req) resp (req_Model req) tok d1) as Hstep.
  destruct (run e (saveChatHistory _ _ _ _ _) d1) as [[e2 d2] t2]. cbn [fst snd] in *.
  unfold history_step in *. rewrite Hss, Hms, Hsi, Hmi in Hstep. exact Hstep.
Qed.

(** X7: whatever the datastore accepts or refuses, a turn only appends to
    the history, and what it appends is one of four things: nothing; a
    session alone; a session with its user message; a session with its
    user message followed by its assistant message.  The session takes the
    next session id, the messages the next message ids in order, and every
    new message belongs to the new session: an assistant message is never
    stored without the user message before it, and a message is never
    stored without its session. *)
Theorem turn_appends_history (e : env) (r : http_request) (d : database) :
  let d' := (run e (apiChatHandler r) d).1.2 in
  exists ns nm,
    chat_sessions d' = chat_sessions d ++ ns /\
    chat_messages d' = chat_messages d ++ nm /\
    next_session_id d' = next_session_id d + Z.of_nat (length ns) /\
    next_message_id d' = next_message_id d + Z.of_nat (length nm) /\
    (ns = [] /\ nm = [] \/
     map s_id ns = [next_session_id d] /\
     Forall (fun m => m_session_id m = next_session_id d) nm /\
     (map (fun m => (m_id m, m_role m)) nm = [] \/
      map (fun m => (m_id m, m_role m)) nm = [(next_message_id d, "user")] \/
      map (fun m => (m_id m, m_role m)) nm =
        [(next_message_id d, "user"); (next_message_id d + 1, "assistant")])).
Proof. exact (apiChatHandler_history_step e r d). Qed.

Lemma history_step_wf (d d' : database) :
  history_wf d -> history_step d d' -> history_wf d'.
Proof.
  intros (Hs & Hsn & Hm & Hmn & Hr) (ns & nm & Es & Em & Ens & Enm & Hshape).
  destruct Hshape as [[-> ->] | (Hids & Hown & Hnums)].
  { unfold history_wf. rewrite Es, Em, Ens, Enm, !app_nil_r. simpl.
    rewrite !Z.add_0_r. auto. }
  destruct ns as [| s [| s2 ns]]; try discriminate. simpl in Hids.
  injection Hids as Hsid.
  assert (Hfresh : ~ In (next_session_id d) (map s_id (chat_sessions d))).
  { intros Hin. apply in_map_iff in Hin as (s0 & Heq & Hin0).
    rewrite List.Forall_forall in Hs. specialize (Hs s0 Hin0). lia. }
  assert (Hmfresh : forall n, next_message_id d <= n -> ~ In n (map m_id (chat_messages d))).
  { intros n Hn Hin. apply in_map_iff in Hin as (m0 & Heq & Hin0).
    rewrite List.Forall_forall in Hm. specialize (Hm m0 Hin0). lia. }
  unfold history_wf. rewrite Es, Em, Ens, Enm. cbn [length].
  rewrite !map_app, !Forall_app. cbn [map]. rewrite Hsid.
  assert (Hold : Forall (fun m => In (m_session_id m)
                            (map s_id (chat_sessions d) ++ [next_session_id d]))
                   (chat_messages d)).
  { eapply List.Forall_impl; [| exact Hr]. intros m Hin. apply in_or_app. auto. }
  assert (Hnew : Forall (fun m => In (m_session_id m)
                            (map s_id (chat_sessions d) ++ [next_session_id d])) nm).
  { eapply List.Forall_impl; [| exact Hown]. intros m ->. apply in_or_app. right. left. reflexivity. }
  split; [| split; [| split; [| split]]].
  - split; [eapply List.Forall_impl; [| exact Hs]; simpl; intros; lia |].
    constructor; [lia | constructor].
  - apply NoDup_app. split; [exact Hsn |]. split; [| apply NoDup_singleton].
    intros x Hx Hx'. apply list_elem_of_In in Hx. apply list_elem_of_singleton in Hx'. subst x.
    contradiction.
  - split; [eapply List.Forall_impl; [| exact Hm]; simpl; intros; lia |].
    destruct Hnums as [Hn | [Hn | Hn]].
    + destruct nm; [constructor | discriminate].
    + destruct nm as [| m1 [| ? ?]]; try discriminate. injection Hn as Hid _.
      constructor; [simpl; lia | constructor].
    + destruct nm as [| m1 [| m2 [| ? ?]]]; try discriminate.
      injection Hn as Hid1 _ Hid2 _.
      constructor; [simpl; lia | constructor; [simpl; lia | constructor]].
  - apply NoDup_app. split; [exact Hmn |].
    destruct Hnums as [Hn | [Hn | Hn]].
    + destruct nm; [| discriminate]. split; [| constructor]. intros x _ Hx. inversion Hx.
    + destruct nm as [| m1 [| ? ?]]; try discriminate. injection Hn as Hid _.
      simpl. rewrite Hid. split; [| apply NoDup_singleton].
      intros x Hx Hx'. apply list_elem_of_In in Hx. apply list_elem_of_singleton in Hx'. subst x.
      apply (Hmfresh (next_message_id d)); [lia | exact Hx].
    + destruct nm as [| m1 [| m2 [| ? ?]]]; try discriminate.
      injection Hn as Hid1 _ Hid2 _. simpl. rewrite Hid1, Hid2. split.
      * intros x Hx Hx'. apply list_elem_of_In in Hx.
        apply list_elem_of_In in Hx'. simpl in Hx'.
        destruct Hx' as [<- | [<- | []]]; eapply Hmfresh; try exact Hx; lia.
      * apply NoDup_cons. split; [| apply NoDup_singleton].
        intros Hx. apply list_elem_of_singleton in Hx. lia.
  - split; assumption.
Qed.

(** X8: the ids and references of the history stay in order.  Starting
    from the empty store, after any sequence of requests served one after
    the other, with any collaborators and any refusals by the datastore,
    session ids are pairwise distinct, message ids are pairwise distinct,
    all of them lie below their counters, and every message belongs to a
    stored session. *)
Theorem history_stays_well_formed (today : Z) (turns : list (env * http_request)) :
  history_wf (serve_all turns (empty_database today)).
Proof.
  assert (Hgen : forall d, history_wf d -> history_wf (serve_all turns d)).
  { unfold serve_all. induction turns as [| t rest IH]; intros d Hwf; simpl; [exact Hwf |].
    apply IH. eapply history_step_wf; [exact Hwf | apply apiChatHandler_history_step]. }
  apply Hgen. unfold history_wf, empty_database. simpl.
  repeat split; constructor.
Qed.

(** ** The quota lets exactly fifty turns through *)

Lemma run_checkUsageLimit_count (e : env) (userID : Z) (d : database) :
  db_fault e (SelectUsage userID) = None ->
  (run e (checkUsageLimit userID) d).1.1 = (count_today userID d <? 50).
Proof.
  intros Hf. rewrite run_checkUsageLimit. unfold count_today. simpl. rewrite Hf.
  destruct (user_usage d !! (userID, db_today d)); reflexivity.
Qed.

Lemma plain_turn_count (userID : Z) (t : turn) (d : database) :
  plain_turn userID t ->
  db_today (serve t d) = db_today d /\
  count_today userID (serve t d) =
    if count_today userID d <? 50 then count_today userID d + 1 else count_today userID d.
Proof.
  intros (Hs & Hticks & Hread & Hup & req & Hd & Hprov).
  unfold serve. rewrite Hticks, run_ticking_nil. cbn [fst snd].
  rewrite (run_apiChatHandler (turn_env t) (turn_request t) userID req d Hs Hd).
  rewrite (run_checkUsageLimit_count _ _ _ Hread).
  destruct (count_today userID d <? 50); [| split; reflexivity].
  specialize (Hprov d).
  destruct (run (turn_env t) (callLLMAPI (req_Message req) (req_Model req)) d)
    as [[[[response tokens] err] d1] t1]. cbn [fst snd] in Hprov. subst err.
  destruct (after_reply_usage (turn_env t) userID req response tokens d) as [Hu Ht].
  destruct (run (turn_env t) (after_reply userID req response tokens) d) as [[reply d2] t2].
  cbn [fst snd] in *. split; [exact Ht |].
  unfold count_today. rewrite Ht, Hu, upsert_lookup, (Hup tokens).
  destruct (decide ((userID, db_today d) = (userID, db_today d))) as [_ | Hne]; [| congruence].
  destruct (user_usage d !! (userID, db_today d)); reflexivity.
Qed.

(** X10: the quota is exact when nothing goes wrong.  When a user below
    or at the limit submits turns one after the other within one day, each
    with a body that decodes, a provider that answers and a datastore that
    accepts the quota read and the upsert, the chat count after [n] turns
    is the smaller of the count before plus [n] and 50: every turn is
    counted until the fiftieth and none after it. *)
Theorem quota_admits_exactly_fifty (userID : Z) (turns : list turn) (d : database) :
  Forall (plain_turn userID) turns ->
  count_today userID d <= 50 ->
  count_today userID (serve_serially turns d) =
  Z.min (count_today userID d + Z.of_nat (length turns)) 50.
Proof.
  unfold serve_serially. revert d.
  induction turns as [| t rest IH]; intros d Hall Hle.
  - simpl. lia.
  - inversion Hall as [| ? ? Ht Hrest]; subst.
    destruct (plain_turn_count userID t d Ht) as [_ Hcount].
    cbn [fold_left length]. rewrite IH; [| exact Hrest |].
    + rewrite Hcount. destruct (Z.ltb_spec (count_today userID d) 50); lia.
    + rewrite Hcount. destruct (Z.ltb_spec (count_today userID d) 50); lia.
Qed.

(** ** What each status means *)

Lemma checkUsageLimit_refuses_iff (e : env) (userID : Z) (d : database) :
  (run e (checkUsageLimit userID) d).1.1 = false <->
  exists row,
    db_fault e (SelectUsage userID) = None /\
    user_usage d !! (userID, db_today d) = Some row /\
    50 <= chat_count row.
Proof.
  rewrite run_checkUsageLimit. simpl. split.
  - destruct (db_fault e (SelectUsage userID)); simpl; [discriminate |].
    destruct (user_usage d !! (userID, db_today d)) as [row |]; simpl; [| discriminate].
    intros H. apply Z.ltb_ge in H. eauto.
  - intros (row & -> & -> & H). simpl. apply Z.ltb_ge. exact H.
Qed.

(** X11: what the statuses 429, 500 and 200 mean.  The answer is 429
    exactly when the request is authenticated and decodes and the quota
    read succeeded with a count of at least 50 (so never when the read was
    refused or found no row); it is 500 exactly when the quota check let
    the request through and the dispatch returned an error; it is 200
    exactly when the quota check let it through and the dispatch returned
    no error, whatever the persistence steps did afterwards. *)
Theorem reply_status_meaning (e : env) (r : http_request) (d : database) :
  let out := run e (apiChatHandler r) d in
  (Status out.1.1 = 429 <->
   exists userID req row,
     session_user_id r = Some userID /\ json_Decode (request_body r) = inr req /\
     db_fault e (SelectUsage userID) = None /\
     user_usage d !! (userID, db_today d) = Some row /\ 50 <= chat_count row) /\
  (Status out.1.1 = 500 <->
   exists userID req err,
     session_user_id r = Some userID /\ json_Decode (request_body r) = inr req /\
     (run e (checkUsageLimit userID) d).1.1 = true /\
     (run e (callLLMAPI (req_Message req) (req_Model req)) d).1.1.2 = Some err) /\
  (Status out.1.1 = 200 <->
   exists userID req,
     session_user_id r = Some userID /\ json_Decode (request_body r) = inr req /\
     (run e (checkUsageLimit userID) d).1.1 = true /\
     (run e (callLLMAPI (req_Message req) (req_Model req)) d).1.1.2 = None).
Proof.
  intros out. subst out.
  destruct (apiChatHandler_cases e r d)
    as [[Hs H] | [(u & err & Hs & Hd & H) | [(u & req & Hs & Hd & Hok & H)
       | [(u & req & resp & tok & err & t1 & Hs & Hd & Hok & Hp & _ & H)
       | (u & req & resp & tok & t1 & Hs & Hd & Hok & Hp & H)]]]]; rewrite H; cbn [fst snd];
    try rewrite after_reply_status; cbn [Status http_Error].
  - repeat split; intros; try discriminate;
      repeat match goal with
             | H : exists _, _ |- _ => destruct H
             | H : _ /\ _ |- _ => destruct H
             end; congruence.
  - repeat split; intros; try discriminate;
      repeat match goal with
             | H : exists _, _ |- _ => destruct H
             | H : _ /\ _ |- _ => destruct H
             end; congruence.
  - apply checkUsageLimit_refuses_iff in Hok as Hrow. destruct Hrow as (row & Hf & Hrow & Hc).
    split; [split; [intros _; exists u, req, row; auto | reflexivity] |].
    split; (split; [discriminate |]);
      intros H'; repeat match goal with
                        | H : exists _, _ |- _ => destruct H
                        | H : _ /\ _ |- _ => destruct H
                        end; congruence.
  - split; [split; [discriminate |] |].
    { intros (u' & req' & row & Hs' & Hd' & Hf & Hrow & Hc).
      assert (u' = u) by congruence. subst u'.
      assert (Hfalse : (run e (checkUsageLimit u) d).1.1 = false)
        by (apply checkUsageLimit_refuses_iff; eauto).
      congruence. }
    split; [split; [intros _ | reflexivity] | split; [discriminate |]].
    + exists u, req, err. rewrite Hp. auto.
    + intros (u' & req' & Hs' & Hd' & _ & Hnone).
      assert (req' = req) by congruence. subst req'. rewrite Hp in Hnone. discriminate.
  - split; [split; [discriminate |] |].
    { intros (u' & req' & row & Hs' & Hd' & Hf & Hrow & Hc).
      assert (u' = u) by congruence. subst u'.
      assert (Hfalse : (run e (checkUsageLimit u) d).1.1 = false)
        by (apply checkUsageLimit_refuses_iff; eauto).
      congruence. }
    split; [split; [discriminate |] | split; [intros _ | reflexivity]].
    + intros (u' & req' & err & Hs' & Hd' & _ & Herr).
      assert (req' = req) by congruence. subst req'. rewrite Hp in Herr. discriminate.
    + exists u, req. rewrite Hp. auto.
Qed.

(** * Login *)

(** ** [saveUser] *)

Lemma refresh_user_keys (googleID name picture : string) (now : Z) (u : user_row) :
  u_id (refresh_user googleID name picture now u) = u_id u /\
  u_google_id (refresh_user googleID name picture now u) = u_google_id u /\
  u_email (refresh_user googleID name picture now u) = u_email u.
Proof. unfold refresh_user. destruct (String.eqb _ _); auto. Qed.

Lemma map_refresh_keys (googleID name picture : string) (now : Z) (l : list user_row) :
  map u_id (map (refresh_user googleID name picture now) l) = map u_id l /\
  map u_google_id (map (refresh_user googleID name picture now) l) = map u_google_id l /\
  map u_email (map (refresh_user googleID name picture now) l) = map u_email l.
Proof.
  induction l as [| u l (IH1 & IH2 & IH3)]; simpl; [auto |].
  destruct (refresh_user_keys googleID name picture now u) as (H1 & H2 & H3).
  rewrite H1, H2, H3, IH1, IH2, IH3. auto.
Qed.

Lemma find_refresh (googleID name picture g : string) (now : Z) (l : list user_row) :
  List.find (fun u => String.eqb (u_google_id u) g)
    (map (refresh_user googleID name picture now) l) =
  refresh_user googleID name picture now <$>
    List.find (fun u => String.eqb (u_google_id u) g) l.
Proof.
  induction l as [| u l IH]; simpl; [reflexivity |].
  destruct (refresh_user_keys googleID name picture now u) as (_ & H2 & _).
  rewrite H2. destruct (String.eqb (u_google_id u) g); [reflexivity | exact IH].
Qed.

Lemma find_google_none (g : string) (l : list user_row) :
  List.find (fun u => String.eqb (u_google_id u) g) l = None ->
  ~ In g (map u_google_id l).
Proof.
  intros Hnone Hin. apply in_map_iff in Hin as (u & Hg & Hin).
  pose proof (List.find_none _ _ Hnone u Hin) as Hf. simpl in Hf.
  apply String.eqb_neq in Hf. congruence.
Qed.

Lemma find_app_none {A : Type} (f : A -> bool) (l k : list A) :
  List.find f l = None -> List.find f (l ++ k) = List.find f k.
Proof.
  induction l as [| x l IH]; simpl; [reflexivity |].
  destruct (f x); [discriminate | exact IH].
Qed.

Lemma email_free (email : string) (l : list user_row) :
  existsb (fun u => String.eqb (u_email u) email) l = false ->
  ~ In email (map u_email l).
Proof.
  intros Hnone Hin. apply in_map_iff in Hin as (u & Hg & Hin).
  assert (Hex : existsb (fun u => String.eqb (u_email u) email) l = true).
  { apply existsb_exists. exists u. split; [exact Hin |]. apply String.eqb_eq. exact Hg. }
  congruence.
Qed.

(** X12: a returning user keeps the account.  When the Google id is
    already registered and the datastore accepts the statement,
    [saveUser] returns the id of the existing row and adds no row; that
    row takes the new name and picture and the current time as
    [updated_at], while its email, plan, Google id and creation time stay
    as they were, so the email passed at a later login is ignored; the row
    of every other Google account is untouched. *)
Theorem saveUser_returning_user (e : auth_env) (googleID email name picture : string)
    (t : users_table) (u : user_row) :
  users_fault e = None ->
  user_of googleID t = Some u ->
  let out := saveUser e googleID email name picture t in
  out.1 = (u_id u, None) /\
  length (users out.2) = length (users t) /\
  user_of googleID out.2 =
    Some {| u_id := u_id u; u_google_id := u_google_id u; u_email := u_email u;
            u_name := name; u_picture := picture; u_plan := u_plan u;
            u_created_at := u_created_at u; u_updated_at := db_now e |} /\
  (forall g, g <> googleID -> user_of g out.2 = user_of g t).
Proof.
  intros Hf Hu out. subst out. unfold saveUser, user_of in *. rewrite Hf, Hu.
  cbn [fst snd users]. split; [reflexivity |]. split; [apply length_map |]. split.
  - rewrite find_refresh, Hu. simpl. unfold refresh_user.
    apply List.find_some in Hu as [_ Heq]. simpl in Heq. rewrite Heq. reflexivity.
  - intros g Hg. rewrite find_refresh.
    destruct (List.find (fun u0 => String.eqb (u_google_id u0) g) (users t)) as [v |] eqn:Hv;
      [| reflexivity].
    apply List.find_some in Hv as [_ Heq]. simpl in Heq. apply String.eqb_eq in Heq.
    simpl. unfold refresh_user.
    destruct (String.eqb_spec (u_google_id v) googleID); [congruence | reflexivity].
Qed.

(** X13: a Google id that is not registered yet.  When the datastore
    accepts the statement, either the email is free and one row is
    appended, with an id used by no other row, the plan "trial" and both
    timestamps at the current time; or the email belongs to another
    account and [saveUser] fails with id 0, leaving the rows as they
    were. *)
Theorem saveUser_unknown_google_id (e : auth_env) (googleID email name picture : string)
    (t : users_table) :
  users_fault e = None ->
  users_wf t ->
  user_of googleID t = None ->
  let out := saveUser e googleID email name picture t in
  (~ In email (map u_email (users t)) ->
   out.1 = (next_user_id t, None) /\
   ~ In (next_user_id t) (map u_id (users t)) /\
   users out.2 =
     users t ++
     [{| u_id := next_user_id t; u_google_id := googleID; u_email := email;
         u_name := name; u_picture := picture; u_plan := "trial";
         u_created_at := db_now e; u_updated_at := db_now e |}]) /\
  (In email (map u_email (users t)) ->
   out.1 = (0, Some email_taken) /\ users out.2 = users t).
Proof.
  intros Hf (Hids & _) Hu out. subst out. unfold saveUser, user_of in *. rewrite Hf, Hu.
  destruct (existsb (fun u => String.eqb (u_email u) email) (users t)) eqn:Hex;
    cbn [fst snd users]; split.
  - intros Hfree. exfalso. apply Hfree. apply existsb_exists in Hex as (u & Hin & Heq).
    apply String.eqb_eq in Heq. apply in_map_iff. eauto.
  - auto.
  - intros _. split; [reflexivity |]. split; [| reflexivity].
    intros Hin. apply in_map_iff in Hin as (u & Heq & Hin).
    rewrite List.Forall_forall in Hids. specialize (Hids u Hin). lia.
  - intros Hin. exfalso. exact (email_free email (users t) Hex Hin).
Qed.

(** X14: after a successful [saveUser] the account is found under its
    Google id, with the id that was returned and the name and picture that
    were passed, whether the row was inserted or updated. *)
Theorem saveUser_then_lookup (e : auth_env) (googleID email name picture : string)
    (t t' : users_table) (userID : Z) :
  saveUser e googleID email name picture t = (userID, None, t') ->
  exists row,
    user_of googleID t' = Some row /\
    u_id row = userID /\ u_google_id row = googleID /\
    u_name row = name /\ u_picture row = picture.
Proof.
  unfold saveUser, user_of. destruct (users_fault e); [discriminate |].
  destruct (List.find _ (users t)) as [u |] eqn:Hu.
  - intros [= <- <-]. cbn [users]. rewrite find_refresh, Hu. simpl.
    apply List.find_some in Hu as [_ Heq]. simpl in Heq.
    unfold refresh_user. rewrite Heq. eexists. split; [reflexivity |]. simpl.
    apply String.eqb_eq in Heq. auto.
  - destruct (existsb _ (users t)); [discriminate |].
    intros [= <- <-]. cbn [users]. rewrite (find_app_none _ _ _ Hu). simpl.
    rewrite String.eqb_refl. eexists. split; [reflexivity |]. simpl. auto.
Qed.

(** X15: [saveUser] keeps the users table in order, whatever it is given
    and whatever the datastore does: ids stay below the counter, and ids,
    Google ids and emails stay pairwise distinct. *)
Theorem saveUser_keeps_users_wf (e : auth_env) (googleID email name picture : string)
    (t : users_table) :
  users_wf t -> users_wf (saveUser e googleID email name picture t).2.
Proof.
  intros (Hids & Hnid & Hng & Hne). unfold saveUser.
  destruct (users_fault e); [repeat split; assumption |].
  destruct (List.find _ (users t)) as [u |] eqn:Hu; cbn [snd].
  - destruct (map_refresh_keys googleID name picture (db_now e) (users t)) as (M1 & M2 & M3).
    unfold users_wf. cbn [users next_user_id]. rewrite M1, M2, M3.
    repeat split; try assumption.
    rewrite List.Forall_forall in *. intros v Hin.
    apply in_map_iff in Hin as (w & <- & Hin).
    destruct (refresh_user_keys googleID name picture (db_now e) w) as (K1 & _ & _).
    rewrite K1. specialize (Hids w Hin). lia.
  - destruct (existsb _ (users t)) eqn:Hex; cbn [snd].
    + unfold users_wf. cbn [users next_user_id]. repeat split; try assumption.
      eapply List.Forall_impl; [| exact Hids]. simpl. intros. lia.
    + unfold users_wf. cbn [users next_user_id]. rewrite !map_app. cbn [map].
      cbn [u_id u_google_id u_email]. split; [| split; [| split]].
      * apply Forall_app. split.
        -- eapply List.Forall_impl; [| exact Hids]. simpl. intros. lia.
        -- constructor; [simpl; lia | constructor].
      * apply NoDup_app. split; [exact Hnid |]. split; [| apply NoDup_singleton].
        intros x Hx Hx'. apply list_elem_of_singleton in Hx'. subst x.
        apply list_elem_of_In in Hx. apply in_map_iff in Hx as (w & Heq & Hin).
        rewrite List.Forall_forall in Hids. specialize (Hids w Hin). lia.
      * apply NoDup_app. split; [exact Hng |]. split; [| apply NoDup_singleton].
        intros x Hx Hx'. apply list_elem_of_singleton in Hx'. subst x.
        apply list_elem_of_In in Hx. exact (find_google_none _ _ Hu Hx).
      * apply NoDup_app. split; [exact Hne |]. split; [| apply NoDup_singleton].
        intros x Hx Hx'. apply list_elem_of_singleton in Hx'. subst x.
        apply list_elem_of_In in Hx. exact (email_free _ _ Hex Hx).
Qed.

(** ** The OAuth callback, the chat page and logout *)

(** X16: the state check comes first.  The callback answers 400 "Invalid
    state" exactly when the [state] of the request differs from the
    expected one, and then it has called nobody: no token exchange, no
    user info, no [saveUser]; the users table is as it was and no session
    is written. *)
Theorem callback_checks_state_first (e : auth_env) (r : callback_request)
    (t : users_table) :
  let res := googleCallbackHandler e r t in
  (a_reply res = AError "Invalid state" 400 <-> form_state r <> oauthStateString) /\
  (form_state r <> oauthStateString ->
   a_calls res = [] /\ a_users res = t /\ a_cookie res = None /\
   a_log res = ["Invalid OAuth state: " +:+ form_state r]).
Proof.
  intros res. subst res. unfold googleCallbackHandler.
  destruct (String.eqb_spec (form_state r) oauthStateString) as [Heq | Hne]; cbn [negb].
  - split; [| intros H; contradiction].
    split; [| intros H; contradiction]. intros H. exfalso.
    destruct (oauth_Exchange e (form_code r)) as [? | token]; [discriminate |].
    destruct (userinfo_Get e token) as [? | resp]; [discriminate |].
    destruct (decode_user_info resp) as [? | ui]; [discriminate |].
    destruct (saveUser e _ _ _ _ t) as [[userID [err |]] t1]; discriminate.
  - split; [split; auto |]. intros _. auto.
Qed.

(** X17: a session is written exactly when the callback redirects to the
    chat page.  In every other case the answer is an error with status 400
    or 500, no cookie is set, and the rows of the users table are as they
    were: a failed login leaves nothing behind. *)
Theorem failed_login_leaves_nothing (e : auth_env) (r : callback_request)
    (t : users_table) :
  let res := googleCallbackHandler e r t in
  (a_cookie res <> None <-> a_reply res = ARedirect "/chat" 307) /\
  (a_cookie res = None ->
   users (a_users res) = users t /\
   exists msg code, a_reply res = AError msg code /\ (code = 400 \/ code = 500)).
Proof.
  intros res. subst res. unfold googleCallbackHandler.
  destruct (negb (String.eqb (form_state r) oauthStateString)).
  { cbn. split; [split; [congruence | discriminate] |]. intros _. eauto 6. }
  destruct (oauth_Exchange e (form_code r)) as [? | token].
  { cbn. split; [split; [congruence | discriminate] |]. intros _. eauto 6. }
  destruct (userinfo_Get e token) as [? | resp].
  { cbn. split; [split; [congruence | discriminate] |]. intros _. eauto 6. }
  destruct (decode_user_info resp) as [? | ui].
  { cbn. split; [split; [congruence | discriminate] |]. intros _. eauto 6. }
  unfold saveUser. destruct (users_fault e).
  { cbn. split; [split; [congruence | discriminate] |]. intros _. eauto 6. }
  destruct (List.find _ (users t)).
  { cbn. split; [split; [reflexivity | discriminate] |]. discriminate. }
  destruct (existsb _ (users t)).
  - cbn. split; [split; [congruence | discriminate] |]. intros _. eauto 6.
  - cbn. split; [split; [reflexivity | discriminate] |]. discriminate.
Qed.

(** X18: login, then chat.  When the state matches, the token exchange
    and the user-info request succeed, the body decodes (its status is not
    looked at) and [saveUser] succeeds, the callback redirects to the chat
    page and writes a session whose [user_id] is the id returned by
    [saveUser], whose [email] and [name] are those of the user info, and
    whose other keys are those of the session that came in.  With that
    session the chat page is rendered for that user and name, and
    [apiChatHandler] never answers 401. *)
Theorem login_then_chat (e : auth_env) (r : callback_request) (t t1 : users_table)
    (token : string) (resp : http_reply) (ui : UserInfo) (userID : Z) :
  form_state r = oauthStateString ->
  oauth_Exchange e (form_code r) = inr token ->
  userinfo_Get e token = inr resp ->
  decode_user_info resp = inr ui ->
  saveUser e (ui_ID ui) (ui_Email ui) (ui_Name ui) (ui_Picture ui) t = (userID, None, t1) ->
  let res := googleCallbackHandler e r t in
  a_reply res = ARedirect "/chat" 307 /\
  a_users res = t1 /\
  a_calls res =
    [CallExchange (form_code r); CallUserInfo token;
     CallSaveUser (ui_ID ui) (ui_Email ui) (ui_Name ui) (ui_Picture ui)] /\
  exists s,
    a_cookie res = Some s /\
    session_user s = Some userID /\
    typed_session s /\
    s !! "email" = Some (VString (ui_Email ui)) /\
    (forall k, k <> "user_id" -> k <> "email" -> k <> "name" -> s !! k = cb_session r !! k) /\
    chatHandler s = AChatPage userID (ui_Name ui) /\
    forall chat_env body d,
      Status (run chat_env (apiChatHandler (api_request s body)) d).1.1 <> 401.
Proof.
  intros Hst Hex Hget Hdec Hsave res. subst res. unfold googleCallbackHandler.
  rewrite Hst, String.eqb_refl. cbn [negb]. rewrite Hex, Hget, Hdec, Hsave.
  cbn [a_reply a_users a_calls a_cookie]. repeat split.
  eexists. split; [reflexivity |].
  assert (Huser : session_user
            (<["name" := VString (ui_Name ui)]>
               (<["email" := VString (ui_Email ui)]>
                  (<["user_id" := VInt userID]> (cb_session r)))) = Some userID).
  { unfold session_user. rewrite lookup_insert_ne by discriminate.
    rewrite lookup_insert_ne by discriminate. rewrite lookup_insert_eq. reflexivity. }
  split; [exact Huser |]. split; [| split; [| split; [| split]]].
  - intros v Hv. rewrite lookup_insert_ne in Hv by discriminate.
    rewrite lookup_insert_ne in Hv by discriminate. rewrite lookup_insert_eq in Hv.
    inversion Hv. eauto.
  - rewrite lookup_insert_ne by discriminate. apply lookup_insert_eq.
  - intros k H1 H2 H3. rewrite !lookup_insert_ne by congruence. reflexivity.
  - unfold chatHandler. rewrite Huser, lookup_insert_eq. reflexivity.
  - intros chat_env body d Hstatus.
    match type of Hstatus with
    | context [api_request ?s0 body] => set (s1 := s0) in *
    end.
    destruct (apiChatHandler_cases chat_env (api_request s1 body) d)
      as [[Hs _] | [(u & err & _ & _ & H) | [(u & req & _ & _ & _ & H)
         | [(u & req & rsp & tok & err & t1' & _ & _ & _ & _ & _ & H)
         | (u & req & rsp & tok & t1' & _ & _ & _ & _ & H)]]]].
    + cbn [api_request session_user_id] in Hs. congruence.
    + rewrite H in Hstatus. discriminate.
    + rewrite H in Hstatus. discriminate.
    + rewrite H in Hstatus. discriminate.
    + rewrite H in Hstatus. cbn [fst] in Hstatus.
      rewrite after_reply_status in Hstatus. discriminate.
Qed.

(** X19: logging in again.  When the Google account of the user info is
    already registered and the datastore accepts the statement, the
    session written by the callback carries the id of the existing row,
    whatever email the user info now shows, and no row is added. *)
Theorem relogin_keeps_user_id (e : auth_env) (r : callback_request) (t : users_table)
    (token : string) (resp : http_reply) (ui : UserInfo) (u : user_row) :
  form_state r = oauthStateString ->
  oauth_Exchange e (form_code r) = inr token ->
  userinfo_Get e token = inr resp ->
  decode_user_info resp = inr ui ->
  users_fault e = None ->
  user_of (ui_ID ui) t = Some u ->
  let res := googleCallbackHandler e r t in
  session_user <$> a_cookie res = Some (Some (u_id u)) /\
  length (users (a_users res)) = length (users t) /\
  u_email <$> user_of (ui_ID ui) (a_users res) = Some (u_email u).
Proof.
  intros Hst Hex Hget Hdec Hf Hu res. subst res. unfold googleCallbackHandler.
  rewrite Hst, String.eqb_refl. cbn [negb]. rewrite Hex, Hget, Hdec.
  unfold saveUser, user_of in *. rewrite Hf, Hu. cbn [a_cookie a_users users]. split.
  - simpl. unfold session_user. rewrite lookup_insert_ne by discriminate.
    rewrite lookup_insert_ne by discriminate. rewrite lookup_insert_eq. reflexivity.
  - split; [apply length_map |]. rewrite find_refresh, Hu. simpl.
    destruct (refresh_user_keys (ui_ID ui) (ui_Name ui) (ui_Picture ui) (db_now e) u)
      as (_ & _ & ->). reflexivity.
Qed.

(** X20: logout ends the session.  The session written by
    [logoutHandler] is empty, whatever it held; with it the chat page
    redirects to the home page and [apiChatHandler] answers 401 without
    touching the datastore or the provider. *)
Theorem logout_ends_session (s : gmap string session_value) (chat_env : env)
    (body : string) (d : database) :
  let s' := (logoutHandler s).2 in
  (logoutHandler s).1 = ARedirect "/" 307 /\
  (forall k, s' !! k = None) /\
  chatHandler s' = ARedirect "/" 307 /\
  run chat_env (apiChatHandler (api_request s' body)) d =
  (http_Error "Unauthorized" 401, d, []).
Proof.
  simpl. repeat split.
Qed.

(** * Startup *)

Lemma create_each_all (e : startup_env) (qs : list table) :
  (create_each e qs).1 = qs /\
  (create_each e qs).2 =
    map (fun err => "Error creating table: " +:+ err) (omap (db_ExecCreate e) qs).
Proof.
  induction qs as [| q rest [IH1 IH2]]; [split; reflexivity |].
  cbn [create_each omap list_omap]. destruct (create_each e rest) as [done log].
  cbn [fst snd] in IH1, IH2. subst done log.
  destruct (db_ExecCreate e q); split; reflexivity.
Qed.

(** X21: startup does not depend on the tables.  [initDB] stops the
    process exactly when [DATABASE_URL] is empty (before anything is
    opened), when [sql.Open] fails or when the ping fails.  Otherwise it
    executes all four [CREATE TABLE] statements in the order users,
    chat_sessions, chat_messages, user_usage, going on after every refused
    one and logging one line for it, and then reports the connection as
    successful, even if every statement was refused. *)
Theorem startup_ignores_create_failures (e : startup_env) :
  let url := start_Getenv e "DATABASE_URL" in
  match initDB e with
  | Fatal msg =>
      url = "" /\ msg = "DATABASE_URL is required" \/
      url <> "" /\ (exists err, sql_Open e url = Some err) \/
      url <> "" /\ sql_Open e url = None /\ (exists err, db_Ping e = Some err)
  | Running executed log =>
      url <> "" /\ sql_Open e url = None /\ db_Ping e = None /\
      executed = [TUsers; TChatSessions; TChatMessages; TUserUsage] /\
      log =
        map (fun err => "Error creating table: " +:+ err) (omap (db_ExecCreate e) queries) ++
        ["✅ Database connected successfully"]
  end.
Proof.
  intros url. subst url. unfold initDB.
  destruct (String.eqb_spec (start_Getenv e "DATABASE_URL") "") as [Hurl | Hurl].
  { left. auto. }
  destruct (sql_Open e _) as [err |] eqn:Hopen.
  { right. left. eauto. }
  destruct (db_Ping e) as [err |] eqn:Hping.
  { right. right. eauto. }
  unfold createTables. destruct (create_each_all e queries) as [H1 H2].
  destruct (create_each e queries) as [done log]. cbn [fst snd] in H1, H2. subst done log.
  repeat split; auto.
Qed.

End Handler.

(** * The scenarios *)



Lemma quota_exceeded_when_read_succeeds_witness :
  run offline_env (apiChatHandler sample_Decode sample_Unmarshal (request_of "hello-claude"))
    (store_with_count 50) =
  ({| Status := 429; Payload := JSONError quota_message |}, store_with_count 50,
   [SelectUsage 7]).
Proof.
  apply (quota_exceeded_when_read_succeeds sample_Decode sample_Unmarshal offline_env
           (request_of "hello-claude") 7
           {| req_Message := "hello"; req_Model := "claude-3" |}
           (store_with_count 50) {| chat_count := 50; token_count := 0 |}).
  - reflexivity.
  - reflexivity.
  - reflexivity.
  - vm_compute. reflexivity.
  - vm_compute. discriminate.
Defined.

(** C2 fails on the code.  User 7 stands at 50 and the datastore refuses
    the quota read: the turn is answered 200, the count goes to 51, and a
    session with its two messages is stored. *)
Lemma quota_bypassed_when_read_is_refused :
  let d := store_with_count 50 in
  let out :=
    run read_refused_env
      (apiChatHandler sample_Decode sample_Unmarshal (request_of "hello-claude")) d in
  chat_count <$> user_usage d !! (7, db_today d) = Some 50 /\
  Status out.1.1 = 200 /\
  chat_count <$> user_usage out.1.2 !! (7, 100) = Some 51 /\
  length (chat_sessions out.1.2) = 1%nat /\
  length (chat_messages out.1.2) = 2%nat.
Proof. repeat split; vm_compute; reflexivity. Qed.

Lemma provider_failure_is_surfaced_witness :
  let out :=
    run upstream_down_env
      (apiChatHandler sample_Decode sample_Unmarshal (request_of "hello-gpt"))
      (store_with_count 3) in
  (run upstream_down_env (callLLMAPI sample_Unmarshal "hello" "gpt-4o") (store_with_count 3)).1.1 =
    ("", 0, Some "OpenAI API error: overloaded") /\
  Status out.1.1 = 500 /\
  out.1.2 = store_with_count 3.
Proof.
  intros out.
  destruct (provider_failure_is_surfaced sample_Decode sample_Unmarshal upstream_down_env
              (request_of "hello-gpt") 7
              {| req_Message := "hello"; req_Model := "gpt-4o" |}
              (store_with_count 3) "OpenAI API error: overloaded"
              eq_refl eq_refl eq_refl) as [Hcause Hsurfaced].
  split.
  - apply Hcause; [discriminate | discriminate |].
    apply (upstream_status sample_Unmarshal upstream_down_env "hello"
             {| StatusCode := 503; Body := inr "overloaded" |} "overloaded");
      [discriminate | reflexivity | reflexivity | discriminate].
  - destruct (Hsurfaced eq_refl) as (Hstatus & Hdb & _ & _). subst out.
    rewrite Hstatus. split; [reflexivity | exact Hdb].
Defined.

Lemma persistence_failures_are_swallowed_witness :
  Status
    (run writes_refused_env
       (apiChatHandler sample_Decode sample_Unmarshal (request_of "hello-claude"))
       (store_with_count 3)).1.1 = 200.
Proof.
  destruct (persistence_failures_are_swallowed sample_Decode sample_Unmarshal
              writes_refused_env (request_of "hello-claude") 7
              {| req_Message := "hello"; req_Model := "claude-3" |}
              (store_with_count 3) (claude_placeholder "hello") 100
              eq_refl eq_refl eq_refl eq_refl) as [Hreply _].
  rewrite Hreply. reflexivity.
Defined.

Lemma stored_session_title_witness :
  exists row,
    chat_sessions
      (run offline_env
         (apiChatHandler sample_Decode sample_Unmarshal (request_of "draft-claude"))
         (store_with_count 3)).1.2 = [row] /\
    s_title row = "Draft a product announcement email for our Q3 l...".
Proof.
  destruct (stored_session_title sample_Decode sample_Unmarshal offline_env
              (request_of "draft-claude") 7
              {| req_Message := scenario_message; req_Model := "claude-3" |}
              (store_with_count 3) (claude_placeholder scenario_message) 100
              eq_refl eq_refl eq_refl eq_refl eq_refl eq_refl)
    as [(row & Hrows & _ & Hlong) _].
  exists row. split; [exact Hrows |].
  destruct Hlong as [Htitle _]; [vm_compute; lia | rewrite Htitle; reflexivity].
Defined.

(** C6 is not what the code does: [saveChatHistory] measures and cuts the
    title with [len(title)] and [title[:47]], which count bytes.  A
    message of 49 letters and one two-byte character has 50 characters,
    so its title should be the message itself; it has 51 bytes, and with
    every statement accepted the turn is answered 200 and the title stored
    is its first 47 letters followed by "...", a well-formed text that is
    not the message.  A message of seventeen three-byte characters has 17
    characters in 51 bytes; the title the handler hands to the datastore
    is its first 47 bytes, which stop inside the sixteenth character,
    followed by "...", and is not well-formed UTF-8 although the message
    is. *)
Theorem title_cut_counts_bytes :
  let out :=
    run offline_env
      (apiChatHandler accent_Decode sample_Unmarshal (request_of "accent-claude"))
      (store_with_count 3) in
  let kana :=
    run offline_env
      (apiChatHandler sample_Decode sample_Unmarshal (request_of "kana-claude"))
      (store_with_count 3) in
  (utf8_length accent_message = 50%nat /\
   String.length accent_message = 51%nat /\
   Status out.1.1 = 200 /\
   map s_title (chat_sessions out.1.2) =
     ["aaaaaaaaaaaaaaaaaaaaaaaaaaaaaaaaaaaaaaaaaaaaaaa..."] /\
   forallb valid_utf8 (map s_title (chat_sessions out.1.2)) = true /\
   map s_title (chat_sessions out.1.2) <> [accent_message]) /\
  (utf8_length kana_message = 17%nat /\
   String.length kana_message = 51%nat /\
   valid_utf8 kana_message = true /\
   session_title kana_message = substring 0 47 kana_message +:+ "..." /\
   valid_utf8 (session_title kana_message) = false /\
   In (InsertSession 7 (session_title kana_message) "claude-3") kana.2).
Proof.
  split.
  - repeat split; try (vm_compute; reflexivity).
    intros H. apply (f_equal (map String.length)) in H. vm_compute in H. discriminate.
  - repeat split; try (vm_compute; reflexivity).
    vm_compute. right. right. left. reflexivity.
Qed.

Lemma successful_turn_history_witness :
  let out :=
    run offline_env
      (apiChatHandler sample_Decode sample_Unmarshal (request_of "hello-claude"))
      (store_with_count 3) in
  length (chat_sessions out.1.2) = 1%nat /\
  map m_role (chat_messages out.1.2) = ["user"; "assistant"] /\
  map m_tokens_used (chat_messages out.1.2) = [None; Some 100].
Proof.
  intros out.
  destruct (successful_turn_history sample_Decode sample_Unmarshal offline_env
              (request_of "hello-claude") 7
              {| req_Message := "hello"; req_Model := "claude-3" |}
              (store_with_count 3) (claude_placeholder "hello") 100
              eq_refl eq_refl eq_refl eq_refl (fun a _ => eq_refl))
    as (_ & Hsessions & Hmessages).
  subst out. rewrite Hsessions, Hmessages. repeat split.
Defined.

(** C7 fails on the code.  The turn is answered 200 in both cases: when
    the datastore refuses the insert of the assistant message, one session
    with the user message alone is left; when it refuses every write,
    nothing is stored. *)
Lemma history_can_be_partial :
  let handler := apiChatHandler sample_Decode sample_Unmarshal (request_of "hello-claude") in
  let partial := run assistant_refused_env handler (empty_database 100) in
  let nothing := run writes_refused_env handler (empty_database 100) in
  (Status partial.1.1 = 200 /\
   length (chat_sessions partial.1.2) = 1%nat /\
   map m_role (chat_messages partial.1.2) = ["user"]) /\
  (Status nothing.1.1 = 200 /\
   chat_sessions nothing.1.2 = [] /\
   chat_messages nothing.1.2 = []).
Proof. repeat split; vm_compute; reflexivity. Qed.

Lemma callLLMAPI_unknown_model_is_primary_witness :
  callLLMAPI sample_Unmarshal "hello" "llama-3" = callOpenAI sample_Unmarshal "hello" /\
  callLLMAPI sample_Unmarshal "hello" "llama-3" = callLLMAPI sample_Unmarshal "hello" "gpt-4o".
Proof.
  apply (callLLMAPI_unknown_model_is_primary sample_Unmarshal "hello" "llama-3");
    discriminate.
Defined.

Lemma checkUsageLimit_fails_open_witness :
  chat_count <$> user_usage (store_with_count 50) !! (7, 100) = Some 50 /\
  run read_refused_env (checkUsageLimit 7) (store_with_count 50) =
  (true, store_with_count 50, [SelectUsage 7]).
Proof.
  split; [vm_compute; reflexivity |].
  apply (checkUsageLimit_fails_open read_refused_env 7 (store_with_count 50)
           "driver: bad connection" eq_refl).
Defined.

(** The whole path on the primary model: the quota read finds 3, the
    upstream answers, usage goes to 4 with the 12 tokens of the reply, and
    the session and its two messages are stored. *)
Example primary_model_turn :
  let out :=
    run online_env (apiChatHandler sample_Decode sample_Unmarshal (request_of "hello-gpt"))
      (store_with_count 3) in
  out.1.1 = {| Status := 200;
               Payload := JSONReply {| resp_Response := "Hi there";
                                       resp_Model := "gpt-4o";
                                       resp_Tokens := 12 |} |} /\
  user_usage out.1.2 !! (7, 100) = Some {| chat_count := 4; token_count := 12 |} /\
  map s_title (chat_sessions out.1.2) = ["hello"] /\
  map m_content (chat_messages out.1.2) = ["hello"; "Hi there"] /\
  out.2 =
    [ SelectUsage 7; Getenv "OPENAI_API_KEY";
      ClientDo "sk-test" (chat_completion_request "hello");
      UpsertUsage 7 12; InsertSession 7 "hello" "gpt-4o";
      InsertMessage 1 "user" "hello" "gpt-4o" None;
      InsertMessage 1 "assistant" "Hi there" "gpt-4o" (Some 12) ].
Proof. repeat split; vm_compute; reflexivity. Qed.

(** ** Scenarios for the further properties *)

Lemma served_turn_is_charged_once_witness :
  let out :=
    run offline_env (apiChatHandler sample_Decode sample_Unmarshal (request_of "hello-claude"))
      (store_with_count 3) in
  count_today 7 out.1.2 = 4 /\ tokens_today 7 out.1.2 = 100.
Proof.
  intros out.
  destruct (served_turn_is_charged_once sample_Decode sample_Unmarshal offline_env
              (request_of "hello-claude") 7
              {| req_Message := "hello"; req_Model := "claude-3" |}
              (store_with_count 3) (claude_placeholder "hello") 100
              eq_refl eq_refl eq_refl eq_refl) as (_ & Hcharged & _).
  destruct (Hcharged eq_refl) as [Hc Ht]. subst out. rewrite Hc, Ht.
  split; vm_compute; reflexivity.
Defined.

Lemma counts_never_decrease_witness :
  match exec race_schedule
          {| sys_db := store_with_count 49;
             sys_pool := racing_pool sample_Decode sample_Unmarshal |} with
  | Some s' =>
      exists row', user_usage (sys_db s') !! (7, 100) = Some row' /\
                   49 <= chat_count row' <= 49 + 10
  | None => False
  end.
Proof.
  destruct (exec race_schedule
              {| sys_db := store_with_count 49;
                 sys_pool := racing_pool sample_Decode sample_Unmarshal |})
    as [s' |] eqn:Hexec.
  - apply (counts_never_decrease race_schedule
             {| sys_db := store_with_count 49;
                sys_pool := racing_pool sample_Decode sample_Unmarshal |}
             s' (7, 100) {| chat_count := 49; token_count := 0 |} Hexec).
    vm_compute. reflexivity.
  - vm_compute in Hexec. discriminate.
Defined.

Lemma quota_admits_exactly_fifty_witness :
  let t := {| turn_env := offline_env; turn_request := request_of "hello-claude";
              turn_ticks := [] |} in
  count_today 7
    (serve_serially sample_Decode sample_Unmarshal [t; t; t] (store_with_count 48)) = 50.
Proof.
  intros t.
  rewrite (quota_admits_exactly_fifty sample_Decode sample_Unmarshal 7 [t; t; t]
             (store_with_count 48)).
  - vm_compute. reflexivity.
  - assert (Hplain : plain_turn sample_Decode sample_Unmarshal 7 t).
    { unfold plain_turn. repeat split.
      exists {| req_Message := "hello"; req_Model := "claude-3" |}.
      split; [reflexivity | intros d; reflexivity]. }
    do 3 (constructor; [exact Hplain |]). constructor.
  - vm_compute. discriminate.
Defined.

Lemma saveUser_returning_user_witness :
  (saveUser google_env "g-alice" "alice@new.example.com" "Alice L." "b.png" one_user).1 =
  (1, None) /\
  u_email <$>
    user_of "g-alice"
      (saveUser google_env "g-alice" "alice@new.example.com" "Alice L." "b.png" one_user).2 =
  Some "alice@example.com".
Proof.
  destruct (saveUser_returning_user google_env "g-alice" "alice@new.example.com"
              "Alice L." "b.png" one_user alice eq_refl eq_refl) as (Hid & _ & Hrow & _).
  split; [exact Hid |]. rewrite Hrow. reflexivity.
Defined.

Lemma one_user_wf : users_wf one_user.
Proof.
  unfold users_wf, one_user. simpl. repeat split.
  - repeat constructor.
  - apply NoDup_singleton.
  - apply NoDup_singleton.
  - apply NoDup_singleton.
Defined.

Lemma saveUser_unknown_google_id_witness :
  (saveUser google_env "g-bob" "bob@example.com" "Bob" "bob.png" one_user).1 = (2, None) /\
  (saveUser google_env "g-bob" "alice@example.com" "Bob" "bob.png" one_user).1 =
  (0, Some email_taken).
Proof.
  split.
  - destruct (saveUser_unknown_google_id google_env "g-bob" "bob@example.com" "Bob"
                "bob.png" one_user eq_refl one_user_wf eq_refl) as [Hfree _].
    apply Hfree. simpl. intros [H | []]. discriminate.
  - destruct (saveUser_unknown_google_id google_env "g-bob" "alice@example.com" "Bob"
                "bob.png" one_user eq_refl one_user_wf eq_refl) as [_ Htaken].
    apply Htaken. simpl. left. reflexivity.
Defined.

Lemma saveUser_then_lookup_witness :
  exists row,
    user_of "g-bob"
      (saveUser google_env "g-bob" "bob@example.com" "Bob" "bob.png" one_user).2 = Some row /\
    u_id row = 2 /\ u_google_id row = "g-bob" /\ u_name row = "Bob" /\
    u_picture row = "bob.png".
Proof.
  apply (saveUser_then_lookup google_env "g-bob" "bob@example.com" "Bob" "bob.png"
           one_user _ 2 eq_refl).
Defined.

Lemma saveUser_keeps_users_wf_witness :
  users_wf (saveUser google_env "g-bob" "bob@example.com" "Bob" "bob.png" one_user).2.
Proof.
  apply (saveUser_keeps_users_wf google_env "g-bob" "bob@example.com" "Bob" "bob.png"
           one_user one_user_wf).
Defined.

Lemma login_then_chat_witness :
  let res := googleCallbackHandler sample_DecodeUserInfo google_env (callback_of "code-bob")
               one_user in
  a_reply res = ARedirect "/chat" 307 /\
  session_user <$> a_cookie res = Some (Some 2).
Proof.
  intros res.
  destruct (login_then_chat sample_Decode sample_Unmarshal sample_DecodeUserInfo google_env
              (callback_of "code-bob") one_user _ "token-bob"
              {| StatusCode := 200; Body := inr "bob-info" |}
              {| ui_ID := "g-bob"; ui_Email := "bob@example.com";
                 ui_Name := "Bob"; ui_Picture := "bob.png" |} 2
              eq_refl eq_refl eq_refl eq_refl eq_refl)
    as (Hreply & _ & _ & s & Hcookie & Huser & _).
  subst res. split; [exact Hreply |]. rewrite Hcookie. simpl. rewrite Huser. reflexivity.
Defined.

Lemma relogin_keeps_user_id_witness :
  let res := googleCallbackHandler sample_DecodeUserInfo google_env
               (callback_of "code-alice") one_user in
  session_user <$> a_cookie res = Some (Some 1) /\
  u_email <$> user_of "g-alice" (a_users res) = Some "alice@example.com".
Proof.
  intros res.
  destruct (relogin_keeps_user_id sample_DecodeUserInfo google_env
              (callback_of "code-alice") one_user "token-alice"
              {| StatusCode := 200; Body := inr "alice-info" |}
              {| ui_ID := "g-alice"; ui_Email := "alice@new.example.com";
                 ui_Name := "Alice L."; ui_Picture := "b.png" |} alice
              eq_refl eq_refl eq_refl eq_refl eq_refl eq_refl) as (Hid & _ & Hemail).
  split; [exact Hid | exact Hemail].
Defined.
